(** * XAX: a file extractor for CD-ROM XA data

    A shallow embedding of [xax.py] and the properties of its sector
    parser ([Sector.__init__], [Sector.is_filler], [bcd_to_int]) and of its
    extraction driver ([main]).

    Conventions of the embedding:
    - a Python [bytes] object is a [list byte]; indexing it yields the
      integer value of the byte, a Python [int], modelled as [Z];
    - an attribute that may hold [None] is an [option];
    - a raised exception is the [Raise] outcome of the [result] type, with
      the exception class and its message;
    - the operating system (directories, files opened for appending,
      standard output) is an explicit [world] threaded through [main]; the
      world also says which calls the operating system refuses. *)

From Stdlib Require Import ZArith String Ascii DecimalString HexadecimalString.
From Stdlib Require Init.Byte.
From stdpp Require Import base list strings gmap.

Local Open Scope string_scope.
Local Open Scope Z_scope.

(** ** Python values *)

Abbreviation byte := Init.Byte.byte.
Abbreviation bytes := (list byte).

(** The integer a [bytes] object yields at one position. *)
Definition byte_val (b : byte) : Z := Z.of_N (Byte.to_N b).

(** [len(data)] *)
Definition len (data : bytes) : Z := Z.of_nat (length data).

(** The classes of [OSError] that a call of the operating system raises. *)
Inductive os_error : Type :=
| FileNotFoundError
| FileExistsError
| NotADirectoryError
| IsADirectoryError
| PermissionError
| BrokenPipeError
| OtherOSError.

Inductive exn : Type :=
| ValueError (msg : string)
| TypeError (msg : string)
| IndexError (msg : string)
| UnboundLocalError (msg : string)
| OSError (kind : os_error) (msg : string)
| KeyboardInterrupt.

Inductive result (A : Type) : Type :=
| Ok (a : A)
| Raise (e : exn).
Arguments Ok {A} a.
Arguments Raise {A} e.

(** Sequencing: the first exception raised ends the computation. *)
#[global] Instance result_ret : MRet result := λ A a, Ok a.
#[global] Instance result_bind : MBind result := λ A B k r,
  match r with
  | Ok a => k a
  | Raise e => Raise e
  end.

(** [data[i]]: a negative index counts from the end. *)
Definition getitem (data : bytes) (i : Z) : result Z :=
  let k := if i <? 0 then i + len data else i in
  if k <? 0 then Raise (IndexError "index out of range")
  else match data !! Z.to_nat k with
       | Some b => Ok (byte_val b)
       | None => Raise (IndexError "index out of range")
       end.

(** The position a slice bound stands for: a negative bound counts from
    the end, and every bound is clipped to the object. *)
Definition slice_bound (data : bytes) (i : Z) : nat :=
  Z.to_nat (if i <? 0 then Z.max 0 (i + len data) else Z.min i (len data)).

(** [data[i:j]] and [data[i:]]; a slice never raises. *)
Definition slice (data : bytes) (i j : Z) : bytes :=
  take (slice_bound data j - slice_bound data i) (drop (slice_bound data i) data).
Definition slice_from (data : bytes) (i : Z) : bytes :=
  drop (slice_bound data i) data.

(** [data.startswith(prefix)] *)
Fixpoint startswith (data prefix : bytes) : bool :=
  match prefix, data with
  | [], _ => true
  | _ :: _, [] => false
  | p :: prefix', d :: data' => Byte.eqb d p && startswith data' prefix'
  end.

(** [bool(i)] and the truth value of an [int] in a condition. *)
Definition bool_of_int (i : Z) : bool := negb (i =? 0).

(** The truth value of an attribute holding [None], [True] or [False]. *)
Definition truthy (o : option bool) : bool := default false o.

(** [attr == i] for an attribute holding [None] or an [int]. *)
Definition eq_int (o : option Z) (i : Z) : bool :=
  match o with
  | Some v => v =? i
  | None => false
  end.

(** ** String formatting *)

(** [str(i)], also the format specification [d] without width. *)
Definition format_d (i : Z) : string := DecimalString.NilZero.string_of_int (Z.to_int i).

Definition digits_d (i : Z) : string := DecimalString.NilZero.string_of_uint (N.to_uint (Z.to_N (Z.abs i))).
Definition digits_x (i : Z) : string := HexadecimalString.NilZero.string_of_uint (N.to_hex_uint (Z.to_N (Z.abs i))).

Fixpoint replicate_char (n : nat) (c : ascii) : string :=
  match n with
  | O => EmptyString
  | S n' => String c (replicate_char n' c)
  end.

(** Zero padding of a number goes between the sign and the digits. *)
Definition zero_pad (width : nat) (i : Z) (digits : string) : string :=
  let sign := if i <? 0 then "-" else EmptyString in
  sign +:+ replicate_char (width - String.length sign - String.length digits) "0" +:+ digits.

(** Space padding of a number goes to the left of the sign. *)
Definition space_pad (width : nat) (i : Z) (digits : string) : string :=
  let sign := if i <? 0 then "-" else EmptyString in
  replicate_char (width - String.length sign - String.length digits) " " +:+ sign +:+ digits.

(** [f'{i:02d}'], [f'{i:6d}'] and [f'{i:02x}'] for an [int]. *)
Definition format_02d (i : Z) : string := zero_pad 2 i (digits_d i).
Definition format_6d (i : Z) : string := space_pad 6 i (digits_d i).
Definition format_02x_int (i : Z) : string := zero_pad 2 i (digits_x i).

(** [f'{attr:02x}'] for an attribute holding [None] or an [int]: [None]
    accepts no format specification. *)
Definition format_02x (o : option Z) : result string :=
  match o with
  | Some i => Ok (format_02x_int i)
  | None => Raise (TypeError "unsupported format string passed to NoneType.__format__")
  end.

(** ** The program *)

Definition SECTOR_SIZE : Z := 2352.

Definition SYNC : bytes :=
  [Byte.x00; Byte.xff; Byte.xff; Byte.xff; Byte.xff; Byte.xff;
   Byte.xff; Byte.xff; Byte.xff; Byte.xff; Byte.xff; Byte.x00].

Definition bcd_to_int (byte : Z) : Z :=
  Z.land byte 15 + Z.shiftr byte 4 * 10.

Record Sector : Type := mkSector {
  minute : Z;
  second : Z;
  sector : Z;
  mode : Z;
  checksum : option bytes;
  ecc : option bytes;
  file : option Z;
  channel : option Z;
  submode : option Z;
  codinginfo : option Z;
  eor : option bool;
  type_video : option bool;
  type_audio : option bool;
  type_data : option bool;
  trigger : option bool;
  form : option Z;
  realtime : option bool;
  eof : option bool;
  data_size : Z;
  data : bytes
}.

Definition length_error (data : bytes) : exn :=
  ValueError ("Sector length is " +:+ format_d (len data) +:+ ", expected "
              +:+ format_d SECTOR_SIZE +:+ ".").
Definition sync_error : exn :=
  ValueError "Sector does not begin with the sync value.".
Definition mode_error : exn :=
  ValueError "Unrecognised sector mode {self.mode}.".

(** [Sector.__init__]: the attributes are assigned in the order of the
    source; the record is built once all of them are known. *)
Definition Sector_init (data : bytes) : result Sector :=
  if negb (len data =? SECTOR_SIZE) then Raise (length_error data)
  else if negb (startswith data SYNC) then Raise sync_error
  else
    b12 ← getitem data 12;
    b13 ← getitem data 13;
    b14 ← getitem data 14;
    self_mode ← getitem data 15;
    let self_minute := bcd_to_int b12 in
    let self_second := bcd_to_int b13 in
    let self_sector := bcd_to_int b14 in
    if self_mode =? 0 then
      Ok {| minute := self_minute; second := self_second; sector := self_sector;
            mode := self_mode; checksum := None; ecc := None;
            file := None; channel := None; submode := None; codinginfo := None;
            eor := None; type_video := None; type_audio := None;
            type_data := None; trigger := None; form := None;
            realtime := None; eof := None;
            data_size := 0; data := [] |}
    else if self_mode =? 1 then
      Ok {| minute := self_minute; second := self_second; sector := self_sector;
            mode := self_mode;
            checksum := Some (slice data 2064 2068);
            ecc := Some (slice_from data 2076);
            file := None; channel := None; submode := None; codinginfo := None;
            eor := None; type_video := None; type_audio := None;
            type_data := None; trigger := None; form := None;
            realtime := None; eof := None;
            data_size := 2048; data := slice data 16 2064 |}
    else if self_mode =? 2 then
      let subhead := slice data 16 20 in
      self_file ← getitem subhead 0;
      b1 ← getitem subhead 1;
      let self_channel := Z.land b1 31 in
      self_submode ← getitem subhead 2;
      let self_eor := bool_of_int (Z.land self_submode 1) in
      let self_type_video := bool_of_int (Z.land self_submode 2) in
      let self_type_audio := bool_of_int (Z.land self_submode 4) in
      let self_type_data := bool_of_int (Z.land self_submode 8) in
      let self_trigger := bool_of_int (Z.land self_submode 16) in
      let self_realtime := bool_of_int (Z.land self_submode 64) in
      let self_eof := bool_of_int (Z.land self_submode 128) in
      if bool_of_int (Z.land self_submode 32) then
        self_codinginfo ← getitem subhead 3;
        Ok {| minute := self_minute; second := self_second; sector := self_sector;
              mode := self_mode;
              checksum := Some (slice_from data 2348);
              ecc := None;
              file := Some self_file; channel := Some self_channel;
              submode := Some self_submode; codinginfo := Some self_codinginfo;
              eor := Some self_eor; type_video := Some self_type_video;
              type_audio := Some self_type_audio;
              type_data := Some self_type_data; trigger := Some self_trigger;
              form := Some 2;
              realtime := Some self_realtime; eof := Some self_eof;
              data_size := 2324; data := slice data 24 2348 |}
      else
        self_codinginfo ← getitem subhead 3;
        Ok {| minute := self_minute; second := self_second; sector := self_sector;
              mode := self_mode;
              checksum := Some (slice data 2072 2076);
              ecc := Some (slice_from data 2076);
              file := Some self_file; channel := Some self_channel;
              submode := Some self_submode; codinginfo := Some self_codinginfo;
              eor := Some self_eor; type_video := Some self_type_video;
              type_audio := Some self_type_audio;
              type_data := Some self_type_data; trigger := Some self_trigger;
              form := Some 1;
              realtime := Some self_realtime; eof := Some self_eof;
              data_size := 2048; data := slice data 24 2072 |}
    else Raise mode_error.

(** The property [Sector.is_filler]. *)
Definition is_filler (self : Sector) : bool :=
  if mode self =? 0 then true
  else if (mode self =? 2) && eq_int (form self) 2 && eq_int (submode self) 32 then true
  else false.

(** [Sector.__str__] *)
Definition Sector_str (self : Sector) : result string :=
  let addr := format_02d (minute self) +:+ ":" +:+ format_02d (second self)
              +:+ ":" +:+ format_02d (sector self) in
  mode_label ←
    (if mode self =? 0 then Ok "Empty"
     else if mode self =? 1 then Ok "Mode1"
     else if mode self =? 2 then
       match form self with
       | Some self_form =>
         let types :=
           ((if truthy (type_video self) then ["Video"] else [])
            ++ (if truthy (type_audio self) then ["Audio"] else [])
            ++ (if truthy (type_data self) then ["Data"] else []))%list in
         let typelabel :=
           match types with
           | [] => "None"
           | _ :: _ => String.concat "/" types
           end in
         file_hex ← format_02x (file self);
         channel_hex ← format_02x (channel self);
         Ok ("Mode2" +:+ "/Form" +:+ format_d self_form +:+ " " +:+ typelabel
             +:+ " F" +:+ file_hex +:+ " C" +:+ channel_hex)
       | None => Ok "Mode2"
       end
     else Raise (UnboundLocalError
       "cannot access local variable 'mode' where it is not associated with a value"));
  Ok (addr +:+ " " +:+ mode_label +:+ " [" +:+ format_d (data_size self) +:+ "]").

(** ** The operating system *)

(** How the operating system answers a call that it does not carry out:
    with an [OSError], or with the interrupt of the user. *)
Inductive fault : Type :=
| Refused (kind : os_error) (msg : string)
| Interrupted.

Definition fault_exn (f : fault) : exn :=
  match f with
  | Refused kind msg => OSError kind msg
  | Interrupted => KeyboardInterrupt
  end.

(** The calls on the file system that [main] makes. *)
Inductive fs_call : Type :=
| Makedirs (name : string)
| OpenAppend (path : string) (data : bytes).

(** *** What the state of the file system forbids

    Names are told apart by their spelling: a regular file is at the name
    its bytes were written under, a directory at the name it was made
    under and at every name above that or above a file. *)

Fixpoint only_seps (s : string) : bool :=
  match s with
  | EmptyString => true
  | String c s' => Ascii.eqb c "/" && only_seps s'
  end.

(** What follows [prefix] in [s], when [s] begins with it. *)
Fixpoint strip_prefix (prefix s : string) : option string :=
  match prefix, s with
  | EmptyString, _ => Some s
  | String a prefix', String b s' =>
    if Ascii.eqb a b then strip_prefix prefix' s' else None
  | String _ _, EmptyString => None
  end.

(** What follows [above] and a separator in [name]. *)
Definition below (name above : string) : option string :=
  strip_prefix (above +:+ "/") name.

(** A regular file is on the way to [name]: [name] goes on below it. *)
Definition file_above (fs : gmap string bytes) (name : string) : bool :=
  existsb (λ k, match below name k with
                | Some rest => negb (only_seps rest)
                | None => false
                end) (map_to_list fs).*1.

(** A regular file is at [name], or at [name] without the separators that
    end it. *)
Definition file_at (fs : gmap string bytes) (name : string) : bool :=
  bool_decide (is_Some (fs !! name))
  || existsb (λ k, match below name k with
                   | Some rest => only_seps rest
                   | None => false
                   end) (map_to_list fs).*1.

Definition dir_at (dirs : list string) (fs : gmap string bytes) (name : string) : bool :=
  existsb (λ d, String.eqb d name || String.prefix (name +:+ "/") d) dirs
  || existsb (String.prefix (name +:+ "/")) (map_to_list fs).*1.

Fixpoint drop_seps (l : list ascii) : list ascii :=
  match l with
  | c :: l' => if Ascii.eqb c "/" then drop_seps l' else l
  | [] => []
  end.

Fixpoint take_component (l : list ascii) : list ascii :=
  match l with
  | c :: l' => if Ascii.eqb c "/" then [] else c :: take_component l'
  | [] => []
  end.

Fixpoint drop_component (l : list ascii) : list ascii :=
  match l with
  | c :: l' => if Ascii.eqb c "/" then l else drop_component l'
  | [] => []
  end.

(** What [path] has after its last separator. *)
Definition last_name (path : string) : string :=
  string_of_list_ascii
    (rev (take_component (rev (String.list_ascii_of_string path)))).

(** What [path] has before its last separator, without the separators
    that end it: the directory the last name is looked up in. [None] for a
    path without separator, which is looked up in the current directory;
    the empty name stands for the root. *)
Definition parent_dir (path : string) : option string :=
  match drop_component (rev (String.list_ascii_of_string path)) with
  | [] => None
  | seps => Some (string_of_list_ascii (rev (drop_seps seps)))
  end.

(** The directory of [path] is not there. *)
Definition parent_missing (dirs : list string) (fs : gmap string bytes)
    (path : string) : bool :=
  match parent_dir path with
  | None => false
  | Some d =>
    negb (String.eqb d EmptyString || String.eqb d "." || String.eqb d ".."
          || dir_at dirs fs d)
  end.

(** The error of a call that the directories [dirs] and the files [fs]
    forbid. [os.makedirs(name, exist_ok=True)] fails for the empty name,
    below a regular file, and where a regular file has the name.
    [open(path, 'ab')] fails for the empty name, below a regular file, for
    a name that ends with a separator, in a directory that is missing, and
    for the name of a directory. *)
Definition fs_refusal (call : fs_call) (dirs : list string)
    (fs : gmap string bytes) : option os_error :=
  match call with
  | Makedirs name =>
    if String.eqb name EmptyString then Some FileNotFoundError
    else if file_above fs name then Some NotADirectoryError
    else if file_at fs name then Some FileExistsError
    else None
  | OpenAppend path _ =>
    if String.eqb path EmptyString then Some FileNotFoundError
    else if file_above fs path then Some NotADirectoryError
    else if only_seps (last_name path) then Some IsADirectoryError
    else if parent_missing dirs fs path then Some FileNotFoundError
    else if String.eqb (last_name path) "." || String.eqb (last_name path) ".."
            || dir_at dirs fs path
    then Some IsADirectoryError
    else None
  end.

(** The world of a run. [made_dirs] are the directories there are, in the
    order [os.makedirs] made sure of them; [files] the contents of the
    regular files, by path; [stdout] the lines printed. A call is carried
    out when neither the operating system nor the state of the file system
    is against it. [fs_oracle] is the answer of the operating system to a
    call on the file system, for all that the state does not show (a
    permission that is missing, a full disk, a place reached under another
    spelling, an interrupt, ...), and [out_fault] its answer to a line to
    print after the lines printed so far (a closed pipe, an interrupt,
    ...): [None] when it has nothing against the call, and the exception
    otherwise. [fs_text] is the text of the error for a call that the
    state forbids. A call that is not carried out leaves the world as it
    is. *)
Record world : Type := mkWorld {
  made_dirs : list string;
  files : gmap string bytes;
  stdout : list string;
  fs_oracle : fs_call → list string → gmap string bytes → option fault;
  fs_text : fs_call → os_error → string;
  out_fault : string → list string → option fault
}.

(** The answer to a call on the file system, with the directories [dirs]
    and the files [fs]: [None] when the call is carried out. *)
Definition fs_fault (w : world) (call : fs_call) (dirs : list string)
    (fs : gmap string bytes) : option fault :=
  match fs_oracle w call dirs fs with
  | Some f => Some f
  | None =>
    match fs_refusal call dirs fs with
    | Some kind => Some (Refused kind (fs_text w call kind))
    | None => None
    end
  end.

(** The text of an [OSError] for a name that is shown as it is, between
    single quotes. *)
Definition errno_text (call : fs_call) (kind : os_error) : string :=
  (match kind with
   | FileNotFoundError => "[Errno 2] No such file or directory"
   | FileExistsError => "[Errno 17] File exists"
   | NotADirectoryError => "[Errno 20] Not a directory"
   | IsADirectoryError => "[Errno 21] Is a directory"
   | PermissionError => "[Errno 13] Permission denied"
   | BrokenPipeError => "[Errno 32] Broken pipe"
   | OtherOSError => "[Errno 5] Input/output error"
   end)
  +:+ ": '"
  +:+ (match call with Makedirs name => name | OpenAppend path _ => path end)
  +:+ "'".

(** No directory, no file and nothing printed yet, and an operating system
    that has nothing against any call. *)
Definition empty_world : world :=
  {| made_dirs := []; files := ∅; stdout := [];
     fs_oracle := λ _ _ _, None; fs_text := errno_text; out_fault := λ _ _, None |}.

(** The effects of the three calls when they are carried out. *)
Definition add_dir (name : string) (w : world) : world :=
  {| made_dirs := (made_dirs w ++ [name])%list; files := files w; stdout := stdout w;
     fs_oracle := fs_oracle w; fs_text := fs_text w; out_fault := out_fault w |}.

Definition add_line (line : string) (w : world) : world :=
  {| made_dirs := made_dirs w; files := files w; stdout := (stdout w ++ [line])%list;
     fs_oracle := fs_oracle w; fs_text := fs_text w; out_fault := out_fault w |}.

Definition add_bytes (path : string) (data : bytes) (w : world) : world :=
  {| made_dirs := made_dirs w;
     files := <[path := (default [] (files w !! path) ++ data)%list]> (files w);
     stdout := stdout w;
     fs_oracle := fs_oracle w; fs_text := fs_text w; out_fault := out_fault w |}.

Definition io (A : Type) : Type := world → result A * world.

#[global] Instance io_ret : MRet io := λ A a w, (Ok a, w).
#[global] Instance io_bind : MBind io := λ A B k m w,
  match m w with
  | (Ok a, w') => k a w'
  | (Raise e, w') => (Raise e, w')
  end.

(** An exception of a pure computation leaves the world as it is. *)
Definition lift {A : Type} (r : result A) : io A := λ w, (r, w).

(** [os.makedirs(name, exist_ok=True)]: no exception for a directory that
    is there already. *)
Definition os_makedirs (name : string) : io unit := λ w,
  match fs_fault w (Makedirs name) (made_dirs w) (files w) with
  | Some f => (Raise (fault_exn f), w)
  | None => (Ok tt, add_dir name w)
  end.

(** [print(line)]: to a pipe that is closed it raises
    [BrokenPipeError]. *)
Definition print (line : string) : io unit := λ w,
  match out_fault w line (stdout w) with
  | Some f => (Raise (fault_exn f), w)
  | None => (Ok tt, add_line line w)
  end.

(** [with open(path, 'ab') as fp: fp.write(data)]: the file is created when
    it does not exist, and [data] goes to its end. The exceptions are
    those of [open]; once the file is open the write is taken to reach
    it. *)
Definition append_write (path : string) (data : bytes) : io unit := λ w,
  match fs_fault w (OpenAppend path data) (made_dirs w) (files w) with
  | Some f => (Raise (fault_exn f), w)
  | None => (Ok tt, add_bytes path data w)
  end.

(** [infile.read(size)] on a buffered binary stream: as many bytes as asked
    for, fewer only at the end of the stream. The pair is the bytes read
    and the stream that remains. *)
Definition read (infile : bytes) (size : Z) : bytes * bytes :=
  (take (Z.to_nat size) infile, drop (Z.to_nat size) infile).

Definition endswith_sep (path : string) : bool :=
  match last (String.list_ascii_of_string path) with
  | Some c => Ascii.eqb c "/"
  | None => false
  end.

(** [os.path.join(path, b)] of [posixpath]; [os.path.join(a, b, c)] is
    [path_join (path_join a b) c]. *)
Definition path_join (path b : string) : string :=
  if String.prefix "/" b then b
  else if String.eqb path EmptyString || endswith_sep path then path +:+ b
  else path +:+ "/" +:+ b.

(** ** The extraction driver *)

(** The [typename] that [main] chooses for a sector. *)
Definition typename (sector : Sector) : string :=
  if truthy (type_video sector) then "video"
  else if truthy (type_audio sector) then "audio"
  else if truthy (type_data sector) then "data"
  else "untyped".

(** The path [main] appends the sector's data to; the two format
    specifications are evaluated in the order of the source. *)
Definition output_path (target_dir : string) (sector : Sector) : result (string * string) :=
  file_hex ← format_02x (file sector);
  let dirname := path_join (path_join target_dir (typename sector)) file_hex in
  channel_hex ← format_02x (channel sector);
  Ok (dirname, path_join dirname channel_hex).

(** What [main] does with a sector once it is constructed. *)
Definition write_sector (target_dir : string) (verbose : bool) (n : Z)
    (sector : Sector) : io unit :=
  _ ← (if verbose
       then line ← lift (Sector_str sector); print (format_6d n +:+ " " +:+ line)
       else mret tt);
  '(dirname, path) ← lift (output_path target_dir sector);
  _ ← os_makedirs dirname;
  append_write path (data sector).

(** One turn of the loop of [main], after a read that returned [data]. *)
Definition main_body (target_dir : string) (verbose : bool) (n : Z) (data : bytes) : io unit :=
  sector ← lift (Sector_init data);
  write_sector target_dir verbose n sector.

(** The loop of [main]. It ends by [break] with [Some n], [n] the number of
    sectors processed, or by an exception. [None] stands for a loop that has
    not ended after [fuel] reads. *)
Fixpoint main_loop (fuel : nat) (infile : bytes) (target_dir : string)
    (verbose : bool) (n : Z) : io (option Z) :=
  match fuel with
  | O => mret None
  | S fuel' =>
    let '(data, infile') := read infile SECTOR_SIZE in
    match data with
    | [] => mret (Some n)
    | _ :: _ =>
      _ ← main_body target_dir verbose n data;
      main_loop fuel' infile' target_dir verbose (n + 1)
    end
  end.

(** Every turn that does not end the loop takes at least one byte off the
    stream, so one read more than the stream has bytes is enough. *)
Definition main (infile : bytes) (target_dir : string) (verbose : bool) : io (option Z) :=
  _ ← os_makedirs target_dir;
  main_loop (S (length infile)) infile target_dir verbose 0.

(** [str(err)]: the message the exception was constructed with; an
    interrupt has none. *)
Definition exn_str (e : exn) : string :=
  match e with
  | ValueError msg | TypeError msg | IndexError msg | UnboundLocalError msg
  | OSError _ msg => msg
  | KeyboardInterrupt => EmptyString
  end.

(** How the script ends: by [sys.exit(status)], or by an exception that
    nothing catches, which the interpreter reports with a status that is
    not 0. [Unfinished] stands for a loop that has not ended. *)
Inductive script_end : Type :=
| Exit (status : Z)
| Uncaught (e : exn)
| Unfinished.

(** The script after the command line is read. A [BrokenPipeError] and a
    [KeyboardInterrupt] that [main] lets through are passed over and the
    script exits with status 0 as after a run without exception; any other
    exception is printed and the script exits with status 1. An exception
    raised by that [print] is caught by nothing. *)
Definition script (infile : bytes) (target_dir : string) (verbose : bool) :
    world → script_end * world := λ w,
  match main infile target_dir verbose w with
  | (Ok (Some _), w') => (Exit 0, w')
  | (Ok None, w') => (Unfinished, w')
  | (Raise (OSError BrokenPipeError _), w') => (Exit 0, w')
  | (Raise KeyboardInterrupt, w') => (Exit 0, w')
  | (Raise e, w') =>
    match print (exn_str e) w' with
    | (Ok _, w'') => (Exit 1, w'')
    | (Raise e', w'') => (Uncaught e', w'')
    end
  end.

(** The prefix [os.path.join(path, b)] puts before a component [b] that
    does not begin with the separator. *)
Definition with_sep (path : string) : string :=
  if String.eqb path EmptyString || endswith_sep path then path else path +:+ "/".

(** ** Reference notions for the driver *)

(** The bytes that the block [raw] contributes to the file [path]: the
    [data] of its sector when the sector's output path is [path]. *)
Definition routed_block (target_dir path : string) (raw : bytes) : bytes :=
  match Sector_init raw with
  | Ok sector =>
    match output_path target_dir sector with
    | Ok (_, p) => if String.eqb p path then data sector else []
    | Raise _ => []
    end
  | Raise _ => []
  end.

(** The same for a sequence of blocks, in their order. *)
Definition routed (target_dir path : string) (blocks : list bytes) : bytes :=
  concat (routed_block target_dir path <$> blocks).


(** The world of [empty_world] with an empty regular file at [name]. *)
Definition file_in_place_world (name : string) : world :=
  {| made_dirs := []; files := {[name := []]}; stdout := [];
     fs_oracle := λ _ _ _, None; fs_text := errno_text; out_fault := λ _ _, None |}.

(** The world [w'] has everything the world [w] has, in the same order,
    and possibly more after it. *)
Definition world_extends (w w' : world) : Prop :=
  made_dirs w `prefix_of` made_dirs w'
  ∧ stdout w `prefix_of` stdout w'
  ∧ ∀ path, default [] (files w !! path) `prefix_of` default [] (files w' !! path)
            ∧ (is_Some (files w !! path) → is_Some (files w' !! path)).

(** ** Sample blocks *)

(** Filling bytes that differ from their neighbours, so that a slice taken
    at a wrong offset shows. *)
Definition filling (n : nat) : bytes :=
  (λ i, default Byte.x00 (Byte.of_nat (i mod 251))) <$> seq 0 n.

(** A block with the sync value, the given bytes from offset 12 on, and
    filling up to the sector size. *)
Definition block (header : bytes) : bytes :=
  SYNC ++ header ++ filling (2352 - 12 - length header).

Definition subheader (b0 b1 b2 b3 : byte) : bytes :=
  [b0; b1; b2; b3; b0; b1; b2; b3].

(** Address 00:02:27, mode 2, file 1, channel byte 0x3f, submode: video and
    data bits, form 1. *)
Definition block_video : bytes :=
  block ([Byte.x00; Byte.x02; Byte.x27; Byte.x02]
         ++ subheader Byte.x01 Byte.x3f Byte.x0a Byte.x00).

(** Mode 2, form 2, audio bit. *)
Definition block_audio : bytes :=
  block ([Byte.x00; Byte.x02; Byte.x28; Byte.x02]
         ++ subheader Byte.x01 Byte.x02 Byte.x24 Byte.x7f).

(** Mode 2, form 2, no other bit of the submode. *)
Definition block_form2_only : bytes :=
  block ([Byte.x00; Byte.x02; Byte.x29; Byte.x02]
         ++ subheader Byte.x00 Byte.x00 Byte.x20 Byte.x00).

Definition block_mode1 : bytes :=
  block [Byte.x00; Byte.x02; Byte.x30; Byte.x01].

Definition block_mode0 : bytes :=
  block [Byte.x00; Byte.x02; Byte.x31; Byte.x00].

Definition block_mode3 : bytes :=
  block [Byte.x00; Byte.x02; Byte.x32; Byte.x03].

(** A block of the right size without the sync value. *)
Definition block_no_sync : bytes :=
  Byte.x01 :: drop 1 block_video.

(** * Properties *)

(** ** Bytes, indices and slices *)

Section python_values.
Implicit Types (data prefix : bytes) (b : byte) (i j k : nat).

Lemma len_length data (n : nat) : len data = Z.of_nat n ↔ length data = n.
Proof. unfold len. lia. Qed.

Lemma getitem_Some data i b :
  data !! i = Some b → getitem data (Z.of_nat i) = Ok (byte_val b).
Proof.
  intros Hb. unfold getitem.
  destruct (Z.ltb_spec (Z.of_nat i) 0) as [|_]; [lia|].
  destruct (Z.ltb_spec (Z.of_nat i) 0) as [|_]; [lia|].
  by rewrite Nat2Z.id, Hb.
Qed.

Lemma getitem_at data (i : Z) b :
  0 ≤ i → data !! Z.to_nat i = Some b → getitem data i = Ok (byte_val b).
Proof. intros Hi Hb. rewrite <-(Z2Nat.id i) by done. by apply getitem_Some. Qed.

Lemma getitem_lt data i :
  (i < length data)%nat →
  ∃ b, data !! i = Some b ∧ getitem data (Z.of_nat i) = Ok (byte_val b).
Proof.
  intros [b Hb]%lookup_lt_is_Some_2. exists b. split; [done|].
  by apply getitem_Some.
Qed.

Lemma slice_bound_in_range data (i : Z) :
  0 ≤ i ≤ len data → slice_bound data i = Z.to_nat i.
Proof.
  intros Hi. unfold slice_bound.
  destruct (Z.ltb_spec i 0) as [|_]; [lia|]. f_equal. lia.
Qed.

Lemma slice_in_range data (i j : Z) :
  0 ≤ i ≤ j → j ≤ len data →
  slice data i j = take (Z.to_nat (j - i)) (drop (Z.to_nat i) data).
Proof.
  intros Hi Hj. unfold slice.
  rewrite !slice_bound_in_range by lia. f_equal. lia.
Qed.

Lemma lookup_slice data (i j : Z) k :
  0 ≤ i ≤ j → j ≤ len data → Z.of_nat k < j - i →
  slice data i j !! k = data !! (Z.to_nat i + k)%nat.
Proof.
  intros Hi Hj Hk. rewrite slice_in_range by done.
  rewrite lookup_take_lt by lia. by rewrite lookup_drop.
Qed.

Lemma length_slice data (i j : Z) :
  0 ≤ i ≤ j → j ≤ len data → len (slice data i j) = j - i.
Proof.
  intros Hi Hj. rewrite slice_in_range by done.
  unfold len in *. rewrite length_take, length_drop. lia.
Qed.

(** An open slice is the slice up to the length of the object. *)
Lemma slice_from_slice data (i : Z) :
  0 ≤ i ≤ len data → slice_from data i = slice data i (len data).
Proof.
  intros Hi. rewrite slice_in_range by lia. unfold slice_from.
  rewrite slice_bound_in_range by done. symmetry. apply take_ge.
  unfold len. rewrite length_drop. lia.
Qed.

Lemma startswith_take data prefix :
  startswith data prefix = true ↔ take (length prefix) data = prefix.
Proof.
  revert data. induction prefix as [|p prefix IH]; intros [|d data]; simpl; try done.
  rewrite andb_true_iff, IH. split.
  - intros [->%Byte.byte_dec_bl ->]. done.
  - intros [= -> ->]. split; [by apply Byte.byte_dec_lb | done].
Qed.

(** Testing one bit the way the source does, by masking with a power of
    two and taking the truth value. *)
Lemma bool_of_int_land_pow2 (x k : Z) :
  0 ≤ k → bool_of_int (Z.land x (2 ^ k)) = Z.testbit x k.
Proof.
  intros Hk. unfold bool_of_int.
  destruct (Z.testbit x k) eqn:Hbit.
  - apply negb_true_iff, Z.eqb_neq. intros Hland.
    assert (Z.testbit (Z.land x (2 ^ k)) k = true) as Hc.
    { by rewrite Z.land_spec, Hbit, Z.pow2_bits_true. }
    rewrite Hland, Z.bits_0 in Hc. done.
  - apply negb_false_iff, Z.eqb_eq, Z.bits_inj'. intros n Hn.
    rewrite Z.land_spec, Z.bits_0.
    destruct (decide (n = k)) as [->|Hne].
    + by rewrite Hbit.
    + rewrite (Z.pow2_bits_false k n) by lia. apply andb_false_r.
Qed.
End python_values.

(** ** The sector parser *)

Section parser.
Implicit Types (raw : bytes) (s : Sector).

(** The bytes of a block that [Sector.__init__] indexes. *)
Lemma header_bytes raw :
  len raw = SECTOR_SIZE →
  ∃ b12 b13 b14 b15 b16 b17 b18 b19,
    (raw !! 12%nat = Some b12 ∧ raw !! 13%nat = Some b13 ∧
     raw !! 14%nat = Some b14 ∧ raw !! 15%nat = Some b15) ∧
    (raw !! 16%nat = Some b16 ∧ raw !! 17%nat = Some b17 ∧
     raw !! 18%nat = Some b18 ∧ raw !! 19%nat = Some b19).
Proof.
  intros Hlen. apply (len_length raw 2352) in Hlen.
  assert (∀ i, (i < 2352)%nat → is_Some (raw !! i)) as Hin.
  { intros i Hi. apply lookup_lt_is_Some_2. lia. }
  destruct (Hin 12%nat) as [b12 ?]; [lia|]. destruct (Hin 13%nat) as [b13 ?]; [lia|].
  destruct (Hin 14%nat) as [b14 ?]; [lia|]. destruct (Hin 15%nat) as [b15 ?]; [lia|].
  destruct (Hin 16%nat) as [b16 ?]; [lia|]. destruct (Hin 17%nat) as [b17 ?]; [lia|].
  destruct (Hin 18%nat) as [b18 ?]; [lia|]. destruct (Hin 19%nat) as [b19 ?]; [lia|].
  by exists b12, b13, b14, b15, b16, b17, b18, b19.
Qed.

Lemma getitem_slice raw (i j k : Z) b :
  raw !! Z.to_nat (i + k) = Some b → 0 ≤ i ≤ j → j ≤ len raw → 0 ≤ k < j - i →
  getitem (slice raw i j) k = Ok (byte_val b).
Proof.
  intros Hb Hi Hj Hk. apply getitem_at; [lia|].
  rewrite lookup_slice by lia. by rewrite <-Z2Nat.inj_add by lia.
Qed.

(** The three messages are those of three different exceptions. *)
Lemma length_error_not_sync raw : length_error raw ≠ sync_error.
Proof. unfold length_error, sync_error. simpl. discriminate. Qed.

Lemma length_error_not_mode raw : length_error raw ≠ mode_error.
Proof. unfold length_error, mode_error. simpl. discriminate. Qed.

Lemma sync_error_not_mode : sync_error ≠ mode_error.
Proof. discriminate. Qed.

(** A sector is constructed only after the first two checks passed. *)
Lemma Sector_init_Ok_checks raw s :
  Sector_init raw = Ok s → len raw = SECTOR_SIZE ∧ startswith raw SYNC = true.
Proof.
  unfold Sector_init.
  destruct (len raw =? SECTOR_SIZE) eqn:Hlen; [|done].
  destruct (startswith raw SYNC) eqn:Hsync; [|done].
  intros _. split; [by apply Z.eqb_eq | done].
Qed.
End parser.

(** Rewrites [Sector_init raw] in the goal to the case distinction on the
    mode byte, for a block of the right length that has the sync value; the
    indexed bytes are named [b12] to [b19]. *)
Ltac open_Sector_init raw Hlen Hsync :=
  destruct (header_bytes raw Hlen)
    as (b12 & b13 & b14 & b15 & b16 & b17 & b18 & b19
        & (H12 & H13 & H14 & H15) & (H16 & H17 & H18 & H19));
  unfold Sector_init;
  rewrite Hlen, Z.eqb_refl, Hsync; cbn [negb];
  rewrite (getitem_at raw 12 _ ltac:(lia) H12), (getitem_at raw 13 _ ltac:(lia) H13),
    (getitem_at raw 14 _ ltac:(lia) H14), (getitem_at raw 15 _ ltac:(lia) H15);
  cbn [mbind result_bind];
  rewrite (getitem_slice raw 16 20 0 b16 H16), (getitem_slice raw 16 20 1 b17 H17),
    (getitem_slice raw 16 20 2 b18 H18), (getitem_slice raw 16 20 3 b19 H19)
    by (rewrite ?Hlen; unfold SECTOR_SIZE; lia);
  cbn [mbind result_bind].

(** The same for a hypothesis [Hs : Sector_init raw = Ok s]. *)
Ltac invert_Sector_init raw Hs :=
  let Hlen := fresh "Hlen" in
  let Hsync := fresh "Hsync" in
  destruct (Sector_init_Ok_checks raw _ Hs) as [Hlen Hsync];
  revert Hs; open_Sector_init raw Hlen Hsync.

Section parser_properties.
Implicit Types (raw : bytes) (s : Sector).

(** With the right length and the sync value, the mode byte decides
    whether a sector is constructed. *)
Lemma Sector_init_mode raw m :
  len raw = SECTOR_SIZE → startswith raw SYNC = true → raw !! 15%nat = Some m →
  if decide (byte_val m = 0 ∨ byte_val m = 1 ∨ byte_val m = 2)
  then ∃ s, Sector_init raw = Ok s ∧ mode s = byte_val m
  else Sector_init raw = Raise mode_error.
Proof.
  intros Hlen Hsync Hm.
  open_Sector_init raw Hlen Hsync.
  assert (m = b15) as -> by congruence.
  case_decide as Hmode.
  - destruct (byte_val b15 =? 0) eqn:E0; [by eexists|].
    destruct (byte_val b15 =? 1) eqn:E1; [by eexists|].
    destruct (byte_val b15 =? 2) eqn:E2; [|lia].
    destruct (bool_of_int _); by eexists.
  - destruct (byte_val b15 =? 0) eqn:E0; [lia|].
    destruct (byte_val b15 =? 1) eqn:E1; [lia|].
    destruct (byte_val b15 =? 2) eqn:E2; [lia|]. done.
Qed.

(** C10: [Sector.__init__] returns a sector whose [data] has the length
    [data_size], or raises one of the three decode errors, which are
    three different exceptions; it never raises for an index out of range.
    In a block of 2352 bytes the indices 12 to 15 and the four indices of
    the subheader hold a byte, and every slice taken has the full length
    its bounds ask for. *)
Theorem Sector_init_total raw :
  ((∃ s, Sector_init raw = Ok s ∧ len (data s) = data_size s)
   ∨ Sector_init raw = Raise (length_error raw)
   ∨ Sector_init raw = Raise sync_error
   ∨ Sector_init raw = Raise mode_error)
  ∧ (length_error raw ≠ sync_error ∧ length_error raw ≠ mode_error
     ∧ sync_error ≠ mode_error)
  ∧ (len raw = SECTOR_SIZE →
     (∀ i, 12 ≤ i ≤ 15 → ∃ v, getitem raw i = Ok v)
     ∧ (∀ k, 0 ≤ k ≤ 3 → ∃ v, getitem (slice raw 16 20) k = Ok v)
     ∧ len (slice raw 16 20) = 4
     ∧ len (slice raw 16 2064) = 2048
     ∧ len (slice raw 2064 2068) = 4
     ∧ len (slice raw 24 2348) = 2324
     ∧ len (slice raw 24 2072) = 2048
     ∧ len (slice raw 2072 2076) = 4
     ∧ slice_from raw 2076 = slice raw 2076 2352
     ∧ len (slice_from raw 2076) = 276
     ∧ slice_from raw 2348 = slice raw 2348 2352
     ∧ len (slice_from raw 2348) = 4).
Proof.
  split; [|split].
  - destruct (decide (len raw = SECTOR_SIZE)) as [Hlen|Hlen].
    + destruct (startswith raw SYNC) eqn:Hsync.
      * assert (∀ i j, 0 ≤ i ≤ j → j ≤ 2352 → len (slice raw i j) = j - i) as Hslice.
        { intros i j Hi Hj. apply length_slice; [done|]. rewrite Hlen. done. }
        open_Sector_init raw Hlen Hsync.
        destruct (byte_val b15 =? 0); [left; eexists; split; [done|]; done|].
        destruct (byte_val b15 =? 1).
        { left. eexists. split; [done|]. cbn [data data_size]. by apply Hslice. }
        destruct (byte_val b15 =? 2); [|by right; right; right].
        destruct (bool_of_int _);
          (left; eexists; split; [done|]; cbn [data data_size]; by apply Hslice).
      * right; right; left. unfold Sector_init.
        by rewrite Hlen, Z.eqb_refl, Hsync.
    + right; left. unfold Sector_init.
      by destruct (Z.eqb_spec (len raw) SECTOR_SIZE).
  - split; [apply length_error_not_sync|].
    split; [apply length_error_not_mode | apply sync_error_not_mode].
  - intros Hlen.
    assert (∀ i j, 0 ≤ i ≤ j → j ≤ 2352 → len (slice raw i j) = j - i) as Hslice.
    { intros i j Hi Hj. apply length_slice; [done|]. rewrite Hlen. done. }
    assert (∀ i, 0 ≤ i ≤ 2352 → slice_from raw i = slice raw i 2352) as Hfrom.
    { intros i Hi. rewrite slice_from_slice by (by rewrite Hlen). by rewrite Hlen. }
    split.
    { intros i Hi.
      destruct (getitem_lt raw (Z.to_nat i)) as (b & _ & Hb).
      - apply (len_length raw 2352) in Hlen. lia.
      - rewrite Z2Nat.id in Hb by lia. eauto. }
    split.
    { intros k Hk.
      destruct (getitem_lt (slice raw 16 20) (Z.to_nat k)) as (b & _ & Hb).
      - pose proof (Hslice 16 20 ltac:(lia) ltac:(lia)) as Hl. unfold len in Hl. lia.
      - rewrite Z2Nat.id in Hb by lia. eauto. }
    rewrite !Hfrom by lia. rewrite !Hslice by lia. done.
Qed.

Lemma Sector_init_total_witness :
  (∃ v, getitem block_video 15 = Ok v) ∧ len (slice block_video 24 2348) = 2324.
Proof.
  destruct (Sector_init_total block_video) as (_ & _ & Hin).
  destruct Hin as (Hget & _ & _ & _ & _ & Hpayload & _); [by vm_compute|].
  split; [apply Hget; lia | exact Hpayload].
Defined.

(** C4: the length error is raised exactly for an input that is not 2352
    bytes long; for an input of 2352 bytes the sync error is raised
    exactly when its first 12 bytes are not the sync value; for an input
    of 2352 bytes with the sync value the mode error is raised exactly
    when byte 15 is none of 0, 1 and 2. An earlier check decides before a
    later one is made. *)
Theorem Sector_init_errors raw :
  (Sector_init raw = Raise (length_error raw) ↔ len raw ≠ SECTOR_SIZE)
  ∧ (len raw = SECTOR_SIZE →
     (Sector_init raw = Raise sync_error ↔ take 12 raw ≠ SYNC))
  ∧ (len raw = SECTOR_SIZE → take 12 raw = SYNC →
     ∃ m, byte_val <$> raw !! 15%nat = Some m
          ∧ (Sector_init raw = Raise mode_error ↔ m ≠ 0 ∧ m ≠ 1 ∧ m ≠ 2)).
Proof.
  assert (∀ raw', len raw' = SECTOR_SIZE → startswith raw' SYNC = true →
    ∃ b, raw' !! 15%nat = Some b ∧
      ((byte_val b = 0 ∨ byte_val b = 1 ∨ byte_val b = 2) ∧
         (∃ s, Sector_init raw' = Ok s)
       ∨ ¬ (byte_val b = 0 ∨ byte_val b = 1 ∨ byte_val b = 2) ∧
         Sector_init raw' = Raise mode_error)) as Hmode.
  { intros raw' Hlen Hsync.
    destruct (header_bytes raw' Hlen) as (_ & _ & _ & b & _ & _ & _ & _ & (_ & _ & _ & Hb) & _).
    exists b. split; [done|].
    pose proof (Sector_init_mode raw' b Hlen Hsync Hb) as Hcase.
    case_decide as Hin; [left | right]; split; try done.
    destruct Hcase as (s & Hs & _). by exists s. }
  split; [|split].
  - split.
    + intros Hraise Hlen.
      destruct (startswith raw SYNC) eqn:Hsync.
      * destruct (Hmode raw Hlen Hsync) as (b & _ & [[_ [s Hs]] | [_ Hm]]).
        { congruence. }
        { apply (length_error_not_mode raw). congruence. }
      * unfold Sector_init in Hraise. rewrite Hlen, Z.eqb_refl, Hsync in Hraise.
        apply (length_error_not_sync raw). cbn [negb] in Hraise. congruence.
    + intros Hlen. unfold Sector_init.
      by destruct (Z.eqb_spec (len raw) SECTOR_SIZE).
  - intros Hlen. change 12%nat with (length SYNC). rewrite <-startswith_take.
    split.
    + intros Hraise Hsync.
      destruct (Hmode raw Hlen Hsync) as (b & _ & [[_ [s Hs]] | [_ Hm]]).
      * congruence.
      * apply sync_error_not_mode. congruence.
    + intros Hsync%not_true_is_false. unfold Sector_init.
      by rewrite Hlen, Z.eqb_refl, Hsync.
  - intros Hlen Hsync. change 12%nat with (length SYNC) in Hsync.
    apply startswith_take in Hsync.
    destruct (Hmode raw Hlen Hsync) as (b & Hb & Hcase).
    exists (byte_val b). split; [by rewrite Hb|].
    destruct Hcase as [[Hin [s Hs]] | [Hout Hm]].
    * split; [congruence | lia].
    * split; [lia | done].
Qed.

Lemma Sector_init_errors_witness :
  Sector_init block_no_sync = Raise sync_error
  ∧ Sector_init block_mode3 = Raise mode_error.
Proof.
  split.
  - apply (Sector_init_errors block_no_sync); by vm_compute.
  - destruct (Sector_init_errors block_mode3) as (_ & _ & Hmode).
    destruct Hmode as (m & Hm & Hiff); [by vm_compute | by vm_compute |].
    apply Hiff. vm_compute in Hm. injection Hm as <-. lia.
Defined.

Lemma land_31_range (x : Z) : 0 ≤ Z.land x 31 ≤ 31.
Proof.
  assert (Z.land x 31 = x `mod` 32) as ->.
  { change 31 with (Z.ones 5). by rewrite Z.land_ones by lia. }
  pose proof (Z.mod_pos_bound x 32 ltac:(lia)). lia.
Qed.

(** C1: a block of 2352 bytes whose byte 15 is 2 is parsed when it has
    the sync value, and in the sector parsed from it [file] is byte 16,
    [channel] is byte 17 masked with 0x1F and so between 0 and 31,
    [submode] is byte 18, [codinginfo] is byte 19, and the flags are the
    bits of [submode] from the least significant one: [eor] bit 0,
    [type_video] bit 1, [type_audio] bit 2, [type_data] bit 3, [trigger]
    bit 4, [form] 2 or 1 as bit 5 is set or not, [realtime] bit 6, [eof]
    bit 7. *)
Theorem mode2_subheader raw :
  len raw = SECTOR_SIZE → raw !! 15%nat = Some Byte.x02 →
  (startswith raw SYNC = true → ∃ s, Sector_init raw = Ok s)
  ∧ ∀ s, Sector_init raw = Ok s →
      mode s = 2
      ∧ file s = byte_val <$> raw !! 16%nat
      ∧ channel s = (λ b, Z.land (byte_val b) 31) <$> raw !! 17%nat
      ∧ (∃ c, channel s = Some c ∧ 0 ≤ c ≤ 31)
      ∧ submode s = byte_val <$> raw !! 18%nat
      ∧ codinginfo s = byte_val <$> raw !! 19%nat
      ∧ ∃ sm, submode s = Some sm
          ∧ eor s = Some (Z.testbit sm 0)
          ∧ type_video s = Some (Z.testbit sm 1)
          ∧ type_audio s = Some (Z.testbit sm 2)
          ∧ type_data s = Some (Z.testbit sm 3)
          ∧ trigger s = Some (Z.testbit sm 4)
          ∧ form s = Some (if Z.testbit sm 5 then 2 else 1)
          ∧ realtime s = Some (Z.testbit sm 6)
          ∧ eof s = Some (Z.testbit sm 7).
Proof.
  intros Hlen Hmode. split.
  - intros Hsync.
    pose proof (Sector_init_mode raw Byte.x02 Hlen Hsync Hmode) as Hcase.
    rewrite decide_True in Hcase by (right; right; done).
    destruct Hcase as (s & Hs & _). by exists s.
  - intros s Hs. invert_Sector_init raw Hs.
    assert (byte_val b15 = 2) as Hv by (by replace b15 with Byte.x02 by congruence).
    destruct (Z.eqb_spec (byte_val b15) 0); [lia|].
    destruct (Z.eqb_spec (byte_val b15) 1); [lia|].
    destruct (Z.eqb_spec (byte_val b15) 2); [|lia].
    rewrite H16, H17, H18, H19. cbn [fmap option_fmap option_map].
    pose proof (land_31_range (byte_val b17)) as Hchannel.
    pose proof (bool_of_int_land_pow2 (byte_val b18) 5 ltac:(lia)) as Hbit.
    change (2 ^ 5) with 32 in Hbit.
    destruct (bool_of_int (Z.land (byte_val b18) 32)) eqn:Hform;
      intros [= <-]; cbn [mode file channel submode codinginfo];
      (do 3 (split; [done|])); (split; [by eexists|]); (do 2 (split; [done|]));
      eexists; (split; [done|]);
      cbn [eor type_video type_audio type_data trigger form realtime eof];
      rewrite <-Hbit;
      rewrite <-!bool_of_int_land_pow2 by lia; done.
Qed.

Lemma mode2_subheader_witness :
  ∃ s, Sector_init block_video = Ok s
       ∧ file s = Some 1 ∧ channel s = Some 31 ∧ submode s = Some 10.
Proof.
  destruct (mode2_subheader block_video) as [Hex Hfields];
    [by vm_compute | by vm_compute |].
  destruct Hex as [s Hs]; [by vm_compute|].
  exists s. split; [exact Hs|].
  destruct (Hfields s Hs) as (_ & Hfile & Hchannel & _ & Hsubmode & _).
  rewrite Hfile, Hchannel, Hsubmode. vm_compute. repeat split.
Defined.

(** C2: in the sector parsed from a block of 2352 bytes whose byte 15 is
    2, when bit 5 of byte 18 is set, [form] is 2, [data] is bytes 24 to
    2348, 2324 bytes, [checksum] is bytes 2348 to 2352 and [ecc] is unset;
    otherwise [form] is 1, [data] is bytes 24 to 2072, 2048 bytes,
    [checksum] is bytes 2072 to 2076 and [ecc] is bytes 2076 to 2352. *)
Theorem mode2_form_payload raw :
  len raw = SECTOR_SIZE → raw !! 15%nat = Some Byte.x02 →
  (startswith raw SYNC = true → ∃ s, Sector_init raw = Ok s)
  ∧ ∀ s b, Sector_init raw = Ok s → raw !! 18%nat = Some b →
      if Z.testbit (byte_val b) 5
      then form s = Some 2
           ∧ data s = slice raw 24 2348 ∧ len (data s) = 2324
           ∧ data_size s = 2324
           ∧ checksum s = Some (slice raw 2348 2352)
           ∧ ecc s = None
      else form s = Some 1
           ∧ data s = slice raw 24 2072 ∧ len (data s) = 2048
           ∧ data_size s = 2048
           ∧ checksum s = Some (slice raw 2072 2076)
           ∧ ecc s = Some (slice raw 2076 2352).
Proof.
  intros Hlen Hmode. split.
  - intros Hsync.
    pose proof (Sector_init_mode raw Byte.x02 Hlen Hsync Hmode) as Hcase.
    rewrite decide_True in Hcase by (right; right; done).
    destruct Hcase as (s & Hs & _). by exists s.
  - intros s b Hs Hb.
    assert (∀ i j, 0 ≤ i ≤ j → j ≤ 2352 → len (slice raw i j) = j - i) as Hslice.
    { intros i j Hi Hj. apply length_slice; [done|]. rewrite Hlen. done. }
    assert (∀ i, 0 ≤ i ≤ 2352 → slice_from raw i = slice raw i 2352) as Hfrom.
    { intros i Hi. rewrite slice_from_slice by (by rewrite Hlen). by rewrite Hlen. }
    invert_Sector_init raw Hs.
    assert (byte_val b15 = 2) as Hv by (by replace b15 with Byte.x02 by congruence).
    assert (b = b18) as -> by congruence.
    destruct (Z.eqb_spec (byte_val b15) 0); [lia|].
    destruct (Z.eqb_spec (byte_val b15) 1); [lia|].
    destruct (Z.eqb_spec (byte_val b15) 2); [|lia].
    rewrite <-(bool_of_int_land_pow2 (byte_val b18) 5) by lia.
    change (2 ^ 5) with 32.
    destruct (bool_of_int (Z.land (byte_val b18) 32)) eqn:Hform;
      intros [= <-]; cbn [form data data_size checksum ecc];
      rewrite ?Hfrom by lia; rewrite !Hslice by lia; done.
Qed.

Lemma mode2_form_payload_witness :
  ∃ s, Sector_init block_audio = Ok s
       ∧ form s = Some 2 ∧ len (data s) = 2324 ∧ ecc s = None.
Proof.
  destruct (mode2_form_payload block_audio) as [Hex Hfields];
    [by vm_compute | by vm_compute |].
  destruct Hex as [s Hs]; [by vm_compute|].
  exists s. split; [exact Hs|].
  pose proof (Hfields s Byte.x24 Hs ltac:(by vm_compute)) as Hform2.
  change (Z.testbit (byte_val Byte.x24) 5) with true in Hform2.
  destruct Hform2 as (Hform & _ & Hlen & _ & _ & Hecc).
  exact (conj Hform (conj Hlen Hecc)).
Defined.

(** C3: in the sector parsed from a block of 2352 bytes whose byte 15 is
    0, [data] is empty, [data_size] is 0, and [checksum], [ecc] and every
    attribute of mode 2 are unset; in the sector parsed from one whose
    byte 15 is 1, [data] is bytes 16 to 2064, 2048 bytes, [checksum] is
    bytes 2064 to 2068 and [ecc] is bytes 2076 to 2352. *)
Theorem mode0_mode1_payload raw :
  len raw = SECTOR_SIZE →
  (startswith raw SYNC = true →
   raw !! 15%nat = Some Byte.x00 ∨ raw !! 15%nat = Some Byte.x01 →
   ∃ s, Sector_init raw = Ok s)
  ∧ ∀ s, Sector_init raw = Ok s →
      (raw !! 15%nat = Some Byte.x00 →
       mode s = 0 ∧ data s = [] ∧ len (data s) = 0 ∧ data_size s = 0
       ∧ checksum s = None ∧ ecc s = None
       ∧ file s = None ∧ channel s = None ∧ submode s = None
       ∧ codinginfo s = None ∧ eor s = None ∧ type_video s = None
       ∧ type_audio s = None ∧ type_data s = None ∧ trigger s = None
       ∧ form s = None ∧ realtime s = None ∧ eof s = None)
      ∧ (raw !! 15%nat = Some Byte.x01 →
         mode s = 1
         ∧ data s = slice raw 16 2064 ∧ len (data s) = 2048
         ∧ data_size s = 2048
         ∧ checksum s = Some (slice raw 2064 2068)
         ∧ ecc s = Some (slice raw 2076 2352)).
Proof.
  intros Hlen. split.
  - intros Hsync [Hmode|Hmode].
    + pose proof (Sector_init_mode raw Byte.x00 Hlen Hsync Hmode) as Hcase.
      rewrite decide_True in Hcase by (left; done).
      destruct Hcase as (s & Hs & _). by exists s.
    + pose proof (Sector_init_mode raw Byte.x01 Hlen Hsync Hmode) as Hcase.
      rewrite decide_True in Hcase by (right; left; done).
      destruct Hcase as (s & Hs & _). by exists s.
  - intros s Hs.
    assert (∀ i j, 0 ≤ i ≤ j → j ≤ 2352 → len (slice raw i j) = j - i) as Hslice.
    { intros i j Hi Hj. apply length_slice; [done|]. rewrite Hlen. done. }
    assert (∀ i, 0 ≤ i ≤ 2352 → slice_from raw i = slice raw i 2352) as Hfrom.
    { intros i Hi. rewrite slice_from_slice by (by rewrite Hlen). by rewrite Hlen. }
    split; intros Hmode; invert_Sector_init raw Hs.
    + assert (byte_val b15 = 0) as Hv by (by replace b15 with Byte.x00 by congruence).
      destruct (Z.eqb_spec (byte_val b15) 0); [|lia].
      intros [= <-]. cbn. done.
    + assert (byte_val b15 = 1) as Hv by (by replace b15 with Byte.x01 by congruence).
      destruct (Z.eqb_spec (byte_val b15) 0); [lia|].
      destruct (Z.eqb_spec (byte_val b15) 1); [|lia].
      intros [= <-]. cbn [mode data data_size checksum ecc].
      rewrite Hfrom by lia. rewrite !Hslice by lia. done.
Qed.

Lemma mode0_mode1_payload_witness :
  (∃ s, Sector_init block_mode0 = Ok s ∧ data s = [] ∧ file s = None)
  ∧ (∃ s, Sector_init block_mode1 = Ok s ∧ len (data s) = 2048).
Proof.
  split.
  - destruct (mode0_mode1_payload block_mode0) as [Hex Hfields]; [by vm_compute|].
    destruct Hex as [s Hs]; [by vm_compute | left; by vm_compute |].
    exists s. split; [exact Hs|].
    destruct (Hfields s Hs) as [Hmode0 _].
    destruct Hmode0 as (_ & Hdata & _ & _ & _ & _ & Hfile & _); [by vm_compute|].
    exact (conj Hdata Hfile).
  - destruct (mode0_mode1_payload block_mode1) as [Hex Hfields]; [by vm_compute|].
    destruct Hex as [s Hs]; [by vm_compute | right; by vm_compute |].
    exists s. split; [exact Hs|].
    destruct (Hfields s Hs) as [_ Hmode1].
    destruct Hmode1 as (_ & _ & Hlen & _); [by vm_compute|].
    exact Hlen.
Defined.

(** C5: for a parsed sector [is_filler] holds exactly when [mode] is 0, or
    [mode] is 2, [form] is 2 and [submode] is 32; in the bytes of the
    block: byte 15 is 0, or byte 15 is 2 and byte 18 is 0x20. A sector of
    form 2 whose [submode] is not 32, so has another bit set, is not a
    filler. *)
Theorem is_filler_iff raw s :
  Sector_init raw = Ok s →
  (is_filler s = true ↔
     mode s = 0 ∨ (mode s = 2 ∧ form s = Some 2 ∧ submode s = Some 32))
  ∧ (is_filler s = true ↔
       raw !! 15%nat = Some Byte.x00
       ∨ (raw !! 15%nat = Some Byte.x02 ∧ raw !! 18%nat = Some Byte.x20))
  ∧ (∀ sm, mode s = 2 → form s = Some 2 → submode s = Some sm → sm ≠ 32 →
       is_filler s = false).
Proof.
  intros Hs.
  assert (is_filler s = true ↔
            mode s = 0 ∨ (mode s = 2 ∧ form s = Some 2 ∧ submode s = Some 32))
    as Hfields.
  { unfold is_filler, eq_int.
    destruct (Z.eqb_spec (mode s) 0) as [E0|E0]; [by split; [left|]|].
    destruct (Z.eqb_spec (mode s) 2) as [E2|E2]; cbn [andb].
    - destruct (form s) as [f|]; [|split; [done | intros [?|(_ & ? & _)]; done]].
      destruct (Z.eqb_spec f 2) as [->|Ef]; cbn [andb].
      + destruct (submode s) as [sm|]; [|split; [done | intros [?|(_ & _ & ?)]; done]].
        destruct (Z.eqb_spec sm 32) as [->|Esm].
        * split; [intros _; right; done | done].
        * split; [done | intros [?|(_ & _ & [= ?])]; done].
      + split; [done | intros [?|(_ & [= ?] & _)]; done].
    - split; [done | intros [?|(? & _)]; done]. }
  split; [exact Hfields|]. split.
  - rewrite Hfields. clear Hfields. invert_Sector_init raw Hs.
    rewrite H15, H18.
    assert (∀ b v, byte_val b = v → Some b = Some (default Byte.x00 (Byte.of_N (Z.to_N v))))
      as Hbyte.
    { intros b v <-. unfold byte_val. by rewrite N2Z.id, Byte.of_to_N. }
    assert (∀ b b', Some b = Some b' → byte_val b = byte_val b') as Hval
      by (by intros b b' [= ->]).
    destruct (Z.eqb_spec (byte_val b15) 0) as [E0|E0].
    { intros [= <-]. cbn [mode]. split; intros _; left; [|done].
      apply (Hbyte b15 0 E0). }
    destruct (Z.eqb_spec (byte_val b15) 1) as [E1|E1].
    { intros [= <-]. cbn [mode form submode].
      split; [intros [?|(? & _)]; lia|].
      intros [H0%Hval|[H2%Hval _]]; [by left | exfalso; by rewrite E1 in H2]. }
    destruct (Z.eqb_spec (byte_val b15) 2) as [E2|E2]; [|done].
    pose proof (Hbyte b15 2 E2) as Hb15. cbn in Hb15.
    destruct (bool_of_int (Z.land (byte_val b18) 32)) eqn:Hform;
      intros [= <-]; cbn [mode form submode].
    + split.
      * intros [?|(_ & _ & [= E18])]; [lia|]. right. split; [done|].
        apply (Hbyte b18 32 E18).
      * intros [H0%Hval|[_ H18'%Hval]]; [by left|]. right.
        change (byte_val Byte.x20) with 32 in H18'. by rewrite H18'.
    + split.
      * intros [?|(_ & ? & _)]; [lia|done].
      * intros [H0%Hval|[_ H18'%Hval]]; [by left|]. exfalso.
        change (byte_val Byte.x20) with 32 in H18'. by rewrite H18' in Hform.
  - intros sm Hmode Hform Hsm Hne. apply not_true_is_false.
    rewrite Hfields. intros [?|(_ & _ & ?)]; [lia | congruence].
Qed.

Lemma is_filler_iff_witness :
  match Sector_init block_form2_only with
  | Ok s => is_filler s = true
  | Raise _ => False
  end.
Proof.
  destruct (Sector_init block_form2_only) as [s|e] eqn:Hs.
  - destruct (is_filler_iff block_form2_only s Hs) as (_ & Hbytes & _).
    apply Hbytes. right. split; vm_compute; reflexivity.
  - vm_compute in Hs. discriminate Hs.
Defined.

(** C7: [bcd_to_int] of a byte is its low nibble plus ten times its high
    nibble, whatever the nibbles are: no nibble is checked against 9.
    0x27 gives 27, 0x00 gives 0, 0x99 gives 99, and 0x1a gives 20, 0xff
    gives 165. The [minute], [second] and [sector] of a parsed sector are
    [bcd_to_int] of bytes 12, 13 and 14. *)
Theorem bcd_to_int_nibbles :
  (∀ b : byte,
     bcd_to_int (byte_val b) = Z.land (byte_val b) 15 + Z.shiftr (byte_val b) 4 * 10
     ∧ bcd_to_int (byte_val b) = byte_val b `mod` 16 + byte_val b `div` 16 * 10)
  ∧ (∀ hi lo, 0 ≤ hi < 16 → 0 ≤ lo < 16 → bcd_to_int (16 * hi + lo) = lo + hi * 10)
  ∧ (bcd_to_int 0x27 = 27 ∧ bcd_to_int 0x00 = 0 ∧ bcd_to_int 0x99 = 99)
  ∧ (bcd_to_int 0x1a = 20 ∧ bcd_to_int 0xff = 165)
  ∧ (∀ raw s, Sector_init raw = Ok s →
       bcd_to_int <$> (byte_val <$> raw !! 12%nat) = Some (minute s)
       ∧ bcd_to_int <$> (byte_val <$> raw !! 13%nat) = Some (second s)
       ∧ bcd_to_int <$> (byte_val <$> raw !! 14%nat) = Some (sector s)).
Proof.
  assert (∀ x, bcd_to_int x = x `mod` 16 + x `div` 16 * 10) as Harith.
  { intros x. unfold bcd_to_int.
    change 15 with (Z.ones 4). rewrite Z.land_ones by lia.
    by rewrite Z.shiftr_div_pow2 by lia. }
  split; [by intros b; split; [|apply Harith]|].
  split.
  { intros hi lo Hhi Hlo. rewrite Harith.
    assert ((16 * hi + lo) `div` 16 = hi) as -> by (symmetry; apply (Z.div_unique _ 16 hi lo); lia).
    assert ((16 * hi + lo) `mod` 16 = lo) as -> by (symmetry; apply (Z.mod_unique _ 16 hi lo); lia).
    done. }
  split; [done|]. split; [done|].
  intros raw s Hs. invert_Sector_init raw Hs.
  rewrite H12, H13, H14. cbn [fmap option_fmap option_map].
  destruct (byte_val b15 =? 0); [by intros [= <-]|].
  destruct (byte_val b15 =? 1); [by intros [= <-]|].
  destruct (byte_val b15 =? 2); [|done].
  destruct (bool_of_int _); by intros [= <-].
Qed.

Lemma bcd_to_int_nibbles_witness :
  bcd_to_int (16 * 10 + 11) = 11 + 10 * 10
  ∧ match Sector_init block_video with
    | Ok s => Some 27 = Some (sector s)
    | Raise _ => False
    end.
Proof.
  destruct bcd_to_int_nibbles as (_ & Hnibbles & _ & _ & Hparsed).
  split; [apply Hnibbles; lia|].
  destruct (Sector_init block_video) as [s|e] eqn:Hs.
  - destruct (Hparsed block_video s Hs) as (_ & _ & Hsector). exact Hsector.
  - vm_compute in Hs. discriminate Hs.
Defined.
End parser_properties.

(** ** The extraction driver *)

(** The effects of a call change no answer of the operating system: the
    answers depend on the world through the directories and the files they
    are asked about only. *)
Lemma fs_fault_add_dir (name : string) (w : world) :
  fs_fault (add_dir name w) = fs_fault w.
Proof. reflexivity. Qed.

Lemma fs_fault_add_line (line : string) (w : world) :
  fs_fault (add_line line w) = fs_fault w.
Proof. reflexivity. Qed.

Lemma fs_fault_add_bytes (path : string) (payload : bytes) (w : world) :
  fs_fault (add_bytes path payload w) = fs_fault w.
Proof. reflexivity. Qed.

Ltac same_fs := rewrite ?fs_fault_add_bytes, ?fs_fault_add_dir, ?fs_fault_add_line.

Section driver.
Implicit Types (raw infile : bytes) (s : Sector) (w : world).
Implicit Types (target_dir : string) (verbose : bool) (n : Z).

Lemma io_bind_unfold {A B : Type} (m : io A) (k : A → io B) w :
  (m ≫= k) w =
  match m w with
  | (Ok a, w') => k a w'
  | (Raise e, w') => (Raise e, w')
  end.
Proof. reflexivity. Qed.

Lemma lift_bind_unfold {A B : Type} (r : result A) (k : A → io B) w :
  (lift r ≫= k) w =
  match r with
  | Ok a => k a w
  | Raise e => (Raise e, w)
  end.
Proof. by destruct r. Qed.

(** The attributes of mode 2 are set for a sector of mode 2, and for no
    other sector. *)
Lemma Sector_init_attributes raw s :
  Sector_init raw = Ok s →
  ((mode s = 0 ∨ mode s = 1) ∧ file s = None ∧ channel s = None ∧ form s = None)
  ∨ (mode s = 2 ∧ ∃ f c fm, file s = Some f ∧ channel s = Some c ∧ form s = Some fm).
Proof.
  intros Hs. invert_Sector_init raw Hs.
  destruct (Z.eqb_spec (byte_val b15) 0);
    [intros [= <-]; left; split; [by left | done]|].
  destruct (Z.eqb_spec (byte_val b15) 1);
    [intros [= <-]; left; split; [by right | done]|].
  destruct (Z.eqb_spec (byte_val b15) 2); [|done].
  destruct (bool_of_int _); intros [= <-]; right; (split; [done|]);
    by eexists _, _, _.
Qed.

(** [str(sector)] raises for no parsed sector. *)
Lemma Sector_str_Ok raw s :
  Sector_init raw = Ok s → ∃ line, Sector_str s = Ok line.
Proof.
  intros Hs. unfold Sector_str.
  destruct (Sector_init_attributes raw s Hs)
    as [([Hm|Hm] & _) | (Hm & f & c & fm & Hf & Hc & Hfm)]; rewrite Hm; cbn.
  - by eexists.
  - by eexists.
  - rewrite Hfm, Hf, Hc. cbn. by eexists.
Qed.

(** The turn of the loop for a parsed sector, call by call. *)
Lemma write_sector_unfold raw s target_dir verbose n w :
  Sector_init raw = Ok s →
  ∃ line,
    Sector_str s = Ok line
    ∧ write_sector target_dir verbose n s w
      = match (if verbose then print (format_6d n +:+ " " +:+ line) w else (Ok tt, w)) with
        | (Raise e, w1) => (Raise e, w1)
        | (Ok _, w1) =>
          match output_path target_dir s with
          | Raise e => (Raise e, w1)
          | Ok (dirname, path) =>
            match os_makedirs dirname w1 with
            | (Raise e, w2) => (Raise e, w2)
            | (Ok _, w2) => append_write path (data s) w2
            end
          end
        end.
Proof.
  intros Hs. destruct (Sector_str_Ok raw s Hs) as [line Hline].
  exists line. split; [done|]. unfold write_sector. destruct verbose.
  - rewrite io_bind_unfold, lift_bind_unfold, Hline.
    destruct (print (format_6d n +:+ " " +:+ line) w) as [[[]|e] w1]; [|done].
    rewrite lift_bind_unfold.
    destruct (output_path target_dir s) as [[dirname path]|e]; [|done].
    by rewrite io_bind_unfold.
  - rewrite io_bind_unfold. cbn [mret io_ret]. rewrite lift_bind_unfold.
    destruct (output_path target_dir s) as [[dirname path]|e]; [|done].
    by rewrite io_bind_unfold.
Qed.

(** The three calls are carried out, or they raise the exception of the
    answer and leave the world as it is. *)
Lemma print_cases line w :
  (out_fault w line (stdout w) = None ∧ print line w = (Ok tt, add_line line w))
  ∨ (∃ f, out_fault w line (stdout w) = Some f ∧ print line w = (Raise (fault_exn f), w)).
Proof. unfold print. destruct (out_fault w line (stdout w)) as [f|]; eauto. Qed.

Lemma os_makedirs_cases name w :
  (fs_fault w (Makedirs name) (made_dirs w) (files w) = None
   ∧ os_makedirs name w = (Ok tt, add_dir name w))
  ∨ (∃ f, fs_fault w (Makedirs name) (made_dirs w) (files w) = Some f
          ∧ os_makedirs name w = (Raise (fault_exn f), w)).
Proof.
  unfold os_makedirs.
  destruct (fs_fault w (Makedirs name) (made_dirs w) (files w)) as [f|]; eauto.
Qed.

Lemma append_write_cases path (payload : bytes) w :
  (fs_fault w (OpenAppend path payload) (made_dirs w) (files w) = None
   ∧ append_write path payload w = (Ok tt, add_bytes path payload w))
  ∨ (∃ f, fs_fault w (OpenAppend path payload) (made_dirs w) (files w) = Some f
          ∧ append_write path payload w = (Raise (fault_exn f), w)).
Proof.
  unfold append_write.
  destruct (fs_fault w (OpenAppend path payload) (made_dirs w) (files w)) as [f|]; eauto.
Qed.

(** [os.makedirs] is not carried out for the empty name, nor for the name
    of a regular file. *)
Lemma makedirs_forbidden w name dirs fs :
  name = EmptyString ∨ is_Some (fs !! name) →
  ∃ f, fs_fault w (Makedirs name) dirs fs = Some f.
Proof.
  intros Hstate. unfold fs_fault.
  destruct (fs_oracle w (Makedirs name) dirs fs) as [f|]; [by eexists|].
  unfold fs_refusal.
  destruct (String.eqb name EmptyString) eqn:Hempty; [by eexists|].
  destruct (file_above fs name); [by eexists|].
  destruct Hstate as [-> | Hfile]; [done|].
  unfold file_at. rewrite bool_decide_eq_true_2 by done. by eexists.
Qed.

(** The turn of the loop for a sector whose [file] is unset raises, before
    any directory is made or any file is opened: the exception of the
    format specification, unless the line of a verbose run was refused
    before. *)
Lemma write_sector_unset raw s target_dir verbose n w :
  Sector_init raw = Ok s → file s = None →
  ∃ e w', write_sector target_dir verbose n s w = (Raise e, w')
          ∧ files w' = files w ∧ made_dirs w' = made_dirs w
          ∧ fs_fault w' = fs_fault w ∧ out_fault w' = out_fault w
          ∧ ((∀ line, verbose = true → Sector_str s = Ok line →
                out_fault w (format_6d n +:+ " " +:+ line) (stdout w) = None) →
             e = TypeError "unsupported format string passed to NoneType.__format__").
Proof.
  intros Hs Hfile.
  destruct (write_sector_unfold raw s target_dir verbose n w Hs) as (line & Hline & ->).
  assert (output_path target_dir s
          = Raise (TypeError "unsupported format string passed to NoneType.__format__"))
    as -> by (unfold output_path; by rewrite Hfile).
  destruct verbose.
  - destruct (print_cases (format_6d n +:+ " " +:+ line) w) as [[Hok ->] | (f & Hf & ->)].
    + eexists _, _. split; [done|]. by repeat split.
    + eexists _, _. split; [done|]. repeat split; try done.
      intros Haccepted. rewrite Haccepted in Hf by done. done.
  - eexists _, _. split; [done|]. by repeat split.
Qed.

(** A verbose turn whose line is refused ends with the exception of
    [print], before anything else is done. *)
Lemma write_sector_refused raw s target_dir n w line f :
  Sector_init raw = Ok s → Sector_str s = Ok line →
  out_fault w (format_6d n +:+ " " +:+ line) (stdout w) = Some f →
  write_sector target_dir true n s w = (Raise (fault_exn f), w).
Proof.
  intros Hs Hline Hrefused.
  destruct (write_sector_unfold raw s target_dir true n w Hs) as (line' & Hline' & ->).
  rewrite Hline in Hline'. injection Hline' as <-.
  unfold print. by rewrite Hrefused.
Qed.

(** A turn of the loop that ends without exception has made the directory
    and appended the data of the sector, and printed its line in a verbose
    run. *)
Lemma write_sector_Ok raw s target_dir verbose n w u w' :
  Sector_init raw = Ok s →
  write_sector target_dir verbose n s w = (Ok u, w') →
  ∃ dirname path lines,
    output_path target_dir s = Ok (dirname, path)
    ∧ length lines = (if verbose then 1 else 0)%nat
    ∧ made_dirs w' = (made_dirs w ++ [dirname])%list
    ∧ files w' = <[path := (default [] (files w !! path) ++ data s)%list]> (files w)
    ∧ stdout w' = (stdout w ++ lines)%list
    ∧ fs_fault w' = fs_fault w ∧ out_fault w' = out_fault w.
Proof.
  intros Hs.
  destruct (write_sector_unfold raw s target_dir verbose n w Hs) as (line & Hline & ->).
  assert (∀ w1 lines,
    made_dirs w1 = made_dirs w → files w1 = files w →
    stdout w1 = (stdout w ++ lines)%list →
    fs_fault w1 = fs_fault w → out_fault w1 = out_fault w →
    length lines = (if verbose then 1 else 0)%nat →
    match output_path target_dir s with
    | Ok (dirname, path) =>
      match os_makedirs dirname w1 with
      | (Ok _, w2) => append_write path (data s) w2
      | (Raise e, w2) => (Raise e, w2)
      end
    | Raise e => (Raise e, w1)
    end = (Ok u, w') →
    ∃ dirname path lines,
      output_path target_dir s = Ok (dirname, path)
      ∧ length lines = (if verbose then 1 else 0)%nat
      ∧ made_dirs w' = (made_dirs w ++ [dirname])%list
      ∧ files w' = <[path := (default [] (files w !! path) ++ data s)%list]> (files w)
      ∧ stdout w' = (stdout w ++ lines)%list
      ∧ fs_fault w' = fs_fault w ∧ out_fault w' = out_fault w) as Hrest.
  { intros w1 lines Hd Hf Ho Hff Hof Hlines.
    destruct (output_path target_dir s) as [[dirname path]|e]; [|done].
    destruct (os_makedirs_cases dirname w1) as [[_ ->] | (f & _ & ->)]; [|done].
    destruct (append_write_cases path (data s) (add_dir dirname w1))
      as [[_ ->] | (f & _ & ->)]; [|done].
    intros [= <- <-]. exists dirname, path, lines.
    same_fs; cbn [add_bytes add_dir made_dirs files stdout out_fault].
    rewrite Hd, Hf, Ho, Hff, Hof. done. }
  destruct verbose.
  - destruct (print_cases (format_6d n +:+ " " +:+ line) w) as [[_ ->] | (f & _ & ->)];
      [|done].
    apply (Hrest _ [format_6d n +:+ " " +:+ line]); done.
  - apply (Hrest w []); try done. by rewrite app_nil_r.
Qed.

(** A turn of the loop that ends with an exception has written to no file;
    it has at most printed its line and made its directory. *)
Lemma write_sector_Raise raw s target_dir verbose n w e w' :
  Sector_init raw = Ok s →
  write_sector target_dir verbose n s w = (Raise e, w') →
  files w' = files w
  ∧ made_dirs w `prefix_of` made_dirs w'
  ∧ stdout w `prefix_of` stdout w'
  ∧ fs_fault w' = fs_fault w ∧ out_fault w' = out_fault w.
Proof.
  intros Hs.
  destruct (write_sector_unfold raw s target_dir verbose n w Hs) as (line & Hline & ->).
  assert (∀ w1,
    files w1 = files w → made_dirs w1 = made_dirs w →
    stdout w `prefix_of` stdout w1 →
    fs_fault w1 = fs_fault w → out_fault w1 = out_fault w →
    match output_path target_dir s with
    | Ok (dirname, path) =>
      match os_makedirs dirname w1 with
      | (Ok _, w2) => append_write path (data s) w2
      | (Raise e, w2) => (Raise e, w2)
      end
    | Raise e => (Raise e, w1)
    end = (Raise e, w') →
    files w' = files w ∧ made_dirs w `prefix_of` made_dirs w'
    ∧ stdout w `prefix_of` stdout w'
    ∧ fs_fault w' = fs_fault w ∧ out_fault w' = out_fault w) as Hrest.
  { intros w1 Hf Hd Ho Hff Hof.
    destruct (output_path target_dir s) as [[dirname path]|e0].
    - destruct (os_makedirs_cases dirname w1) as [[_ ->] | (f & _ & ->)].
      + destruct (append_write_cases path (data s) (add_dir dirname w1))
          as [[_ ->] | (f & _ & ->)]; [done|].
        intros [= <- <-]. same_fs; cbn [add_dir made_dirs files stdout out_fault].
        rewrite Hd. split; [done|]. split; [by apply prefix_app_r|]. done.
      + intros [= <- <-]. by rewrite Hd.
    - intros [= <- <-]. by rewrite Hd. }
  destruct verbose.
  - destruct (print_cases (format_6d n +:+ " " +:+ line) w) as [[_ ->] | (f & _ & ->)].
    + apply Hrest; try done. by apply prefix_app_r.
    + by intros [= <- <-].
  - by apply Hrest.
Qed.

(** The turn of the loop for a sector whose [file] and [channel] are set,
    when the operating system carries out its calls: the line of a verbose
    run, the directory, the file. *)
Lemma write_sector_set raw s target_dir verbose n w f c :
  Sector_init raw = Ok s → file s = Some f → channel s = Some c →
  let dirname := path_join (path_join target_dir (typename s)) (format_02x_int f) in
  let path := path_join dirname (format_02x_int c) in
  (∀ line, verbose = true → Sector_str s = Ok line →
     out_fault w (format_6d n +:+ " " +:+ line) (stdout w) = None) →
  fs_fault w (Makedirs dirname) (made_dirs w) (files w) = None →
  fs_fault w (OpenAppend path (data s)) (made_dirs w ++ [dirname])%list (files w) = None →
  ∃ w', write_sector target_dir verbose n s w = (Ok tt, w')
        ∧ files w' = <[path := (default [] (files w !! path) ++ data s)%list]> (files w)
        ∧ made_dirs w' = (made_dirs w ++ [dirname])%list
        ∧ fs_fault w' = fs_fault w ∧ out_fault w' = out_fault w.
Proof.
  intros Hs Hfile Hchannel dirname path Hprint Hmkdir Hopen.
  destruct (write_sector_unfold raw s target_dir verbose n w Hs) as (line & Hline & ->).
  assert (output_path target_dir s = Ok (dirname, path)) as ->
    by (unfold output_path; by rewrite Hfile, Hchannel).
  assert (∀ w1, files w1 = files w → made_dirs w1 = made_dirs w →
            fs_fault w1 = fs_fault w → out_fault w1 = out_fault w →
            ∃ w',
              match os_makedirs dirname w1 with
              | (Ok _, w2) => append_write path (data s) w2
              | (Raise e, w2) => (Raise e, w2)
              end = (Ok tt, w')
              ∧ files w' = <[path := (default [] (files w !! path) ++ data s)%list]> (files w)
              ∧ made_dirs w' = (made_dirs w ++ [dirname])%list
              ∧ fs_fault w' = fs_fault w ∧ out_fault w' = out_fault w) as Hrest.
  { intros w1 Hf Hd Hff Hof.
    unfold os_makedirs. rewrite Hff, Hd, Hf, Hmkdir.
    unfold append_write. same_fs; cbn [add_dir made_dirs files].
    rewrite Hff, Hd, Hf, Hopen.
    eexists. split; [done|].
    same_fs; cbn [add_bytes add_dir made_dirs files out_fault]. by rewrite Hf, Hd. }
  destruct verbose.
  - unfold print. rewrite (Hprint line) by done. by apply Hrest.
  - by apply Hrest.
Qed.

Lemma main_body_unfold target_dir verbose n raw w :
  main_body target_dir verbose n raw w =
  match Sector_init raw with
  | Ok s => write_sector target_dir verbose n s w
  | Raise e => (Raise e, w)
  end.
Proof. unfold main_body. by rewrite lift_bind_unfold. Qed.

(** A turn that ends without exception has read a whole sector. *)
Lemma main_body_Ok_len target_dir verbose n raw w u w' :
  main_body target_dir verbose n raw w = (Ok u, w') → len raw = SECTOR_SIZE.
Proof.
  rewrite main_body_unfold. destruct (Sector_init raw) as [s|e] eqn:Hs; [|done].
  intros _. by destruct (Sector_init_Ok_checks raw s Hs).
Qed.

Lemma main_loop_unfold fuel infile target_dir verbose n w :
  main_loop (S fuel) infile target_dir verbose n w =
  match (read infile SECTOR_SIZE).1 with
  | [] => (Ok (Some n), w)
  | b :: bs =>
    match main_body target_dir verbose n (b :: bs) w with
    | (Ok _, w') =>
      main_loop fuel (read infile SECTOR_SIZE).2 target_dir verbose (n + 1) w'
    | (Raise e, w') => (Raise e, w')
    end
  end.
Proof.
  cbn [main_loop]. destruct (read infile SECTOR_SIZE) as [[|b bs] infile']; done.
Qed.

(** A read that returns a whole sector leaves that much less. *)
Lemma read_sector infile :
  len (read infile SECTOR_SIZE).1 = SECTOR_SIZE →
  infile = ((read infile SECTOR_SIZE).1 ++ (read infile SECTOR_SIZE).2)%list
  ∧ len infile = SECTOR_SIZE + len (read infile SECTOR_SIZE).2.
Proof.
  unfold read, len. cbn [fst snd]. intros Hlen.
  rewrite take_drop. split; [done|].
  rewrite <-(take_drop (Z.to_nat SECTOR_SIZE) infile) at 1.
  rewrite length_app. lia.
Qed.

(** A read from a stream that begins with a whole sector returns it. *)
Lemma read_app raw rest :
  len raw = SECTOR_SIZE → read (raw ++ rest)%list SECTOR_SIZE = (raw, rest).
Proof.
  intros Hlen. unfold read.
  assert (Z.to_nat SECTOR_SIZE = length raw) as -> by (unfold len in Hlen; lia).
  by rewrite take_app_length, drop_app_length.
Qed.

(** A read returns nothing only at the end of the stream. *)
Lemma read_nil infile : (read infile SECTOR_SIZE).1 = [] → infile = [].
Proof.
  unfold read. cbn [fst]. destruct infile as [|b infile]; [done|].
  by change (Z.to_nat SECTOR_SIZE) with (S (Z.to_nat 2351)).
Qed.
End driver.

Section driver_loop.
Implicit Types (raw infile prefix rest : bytes) (s : Sector) (w : world).
Implicit Types (target_dir : string) (verbose : bool) (n m : Z) (fuel : nat).

Lemma SECTOR_SIZE_eq : SECTOR_SIZE = 2352.
Proof. reflexivity. Qed.

(** With more reads allowed than the stream has bytes, the number allowed
    does not matter. *)
Lemma main_loop_fuel fuel1 fuel2 infile target_dir verbose n w :
  (length infile < fuel1)%nat → (length infile < fuel2)%nat →
  main_loop fuel1 infile target_dir verbose n w
  = main_loop fuel2 infile target_dir verbose n w.
Proof.
  revert fuel2 infile n w.
  induction fuel1 as [|fuel1 IH]; intros [|fuel2] infile n w Hf1 Hf2; try lia.
  rewrite !main_loop_unfold.
  destruct (read infile SECTOR_SIZE).1 as [|b bs] eqn:Hread; [done|].
  destruct (main_body target_dir verbose n (b :: bs) w) as [[[]|e] w'] eqn:Hbody; [|done].
  apply main_body_Ok_len in Hbody. rewrite <-Hread in Hbody.
  destruct (read_sector infile Hbody) as [_ Hlen].
  pose proof SECTOR_SIZE_eq. unfold len in Hlen. apply IH; lia.
Qed.

(** The loop ends: [main] allows enough reads. *)
Lemma main_loop_ends fuel infile target_dir verbose n w :
  (length infile < fuel)%nat →
  (main_loop fuel infile target_dir verbose n w).1 ≠ Ok None.
Proof.
  revert infile n w.
  induction fuel as [|fuel IH]; intros infile n w Hfuel; [lia|].
  rewrite main_loop_unfold.
  destruct (read infile SECTOR_SIZE).1 as [|b bs] eqn:Hread; [done|].
  destruct (main_body target_dir verbose n (b :: bs) w) as [[[]|e] w'] eqn:Hbody; [|done].
  apply main_body_Ok_len in Hbody. rewrite <-Hread in Hbody.
  destruct (read_sector infile Hbody) as [_ Hlen].
  pose proof SECTOR_SIZE_eq. unfold len in Hlen. apply IH; lia.
Qed.

(** The loop ends by [break] only on a stream of whole sectors, as many
    as it counted. *)
Lemma main_loop_break fuel infile target_dir verbose n w m w' :
  main_loop fuel infile target_dir verbose n w = (Ok (Some m), w') →
  n ≤ m ∧ len infile = (m - n) * SECTOR_SIZE.
Proof.
  revert infile n w.
  induction fuel as [|fuel IH]; intros infile n w; [done|].
  rewrite main_loop_unfold.
  destruct (read infile SECTOR_SIZE).1 as [|b bs] eqn:Hread.
  - intros [= <- <-]. apply read_nil in Hread as ->. unfold len. simpl. lia.
  - destruct (main_body target_dir verbose n (b :: bs) w) as [[[]|e] w1] eqn:Hbody; [|done].
    apply main_body_Ok_len in Hbody. rewrite <-Hread in Hbody.
    destruct (read_sector infile Hbody) as [_ Hlen].
    intros [Hle Hrest]%IH. pose proof SECTOR_SIZE_eq. lia.
Qed.

(** After a stream that ends the loop by [break], what follows in a
    longer stream is processed from the count and the world reached. *)
Lemma main_loop_app fuel prefix rest target_dir verbose n w m w' fuel' :
  main_loop fuel prefix target_dir verbose n w = (Ok (Some m), w') →
  (length (prefix ++ rest) < fuel')%nat →
  main_loop fuel' (prefix ++ rest) target_dir verbose n w
  = main_loop (S (length rest)) rest target_dir verbose m w'.
Proof.
  revert prefix n w fuel'.
  induction fuel as [|fuel IH]; intros prefix n w fuel'; [done|].
  rewrite main_loop_unfold.
  destruct (read prefix SECTOR_SIZE).1 as [|b bs] eqn:Hread.
  - intros [= <- <-] Hfuel. apply read_nil in Hread as ->.
    apply main_loop_fuel; [done | lia].
  - destruct (main_body target_dir verbose n (b :: bs) w) as [[[]|e] w1] eqn:Hbody; [|done].
    intros Hloop Hfuel.
    pose proof (main_body_Ok_len _ _ _ _ _ _ _ Hbody) as Hlen.
    rewrite <-Hread in Hlen.
    destruct (read_sector prefix Hlen) as [Hprefix Hlen'].
    rewrite Hread in Hlen, Hprefix.
    destruct fuel' as [|fuel']; [lia|].
    rewrite main_loop_unfold.
    rewrite Hprefix, <-(assoc_L (++)), (read_app (b :: bs)) by done.
    cbn [fst snd]. rewrite Hbody.
    apply IH; [done|].
    rewrite Hprefix, <-(assoc_L (++)), length_app in Hfuel.
    pose proof SECTOR_SIZE_eq. unfold len in Hlen. lia.
Qed.
End driver_loop.

Section driver_properties.
Implicit Types (raw infile prefix rest tail : bytes) (s : Sector) (w : world).
Implicit Types (target_dir : string) (verbose : bool) (n : Z).

(** [main] begins by making the target directory: it goes on into the loop
    when the operating system carries this out, and ends with the
    exception otherwise. *)
Lemma main_unfold infile target_dir verbose w :
  main infile target_dir verbose w
  = match fs_fault w (Makedirs target_dir) (made_dirs w) (files w) with
    | None =>
      main_loop (S (length infile)) infile target_dir verbose 0 (add_dir target_dir w)
    | Some f => (Raise (fault_exn f), w)
    end.
Proof.
  unfold main. rewrite io_bind_unfold. unfold os_makedirs.
  by destruct (fs_fault w (Makedirs target_dir) (made_dirs w) (files w)).
Qed.

(** A run that ends without exception has made the target directory. *)
Lemma main_Ok_loop infile target_dir verbose w r w' :
  main infile target_dir verbose w = (Ok r, w') →
  fs_fault w (Makedirs target_dir) (made_dirs w) (files w) = None
  ∧ main_loop (S (length infile)) infile target_dir verbose 0 (add_dir target_dir w)
    = (Ok r, w').
Proof.
  rewrite main_unfold.
  by destruct (fs_fault w (Makedirs target_dir) (made_dirs w) (files w)).
Qed.

(** The three type flags of a parsed sector that has a [submode]. *)
Lemma Sector_init_type_flags raw s sm :
  Sector_init raw = Ok s → submode s = Some sm →
  type_video s = Some (Z.testbit sm 1)
  ∧ type_audio s = Some (Z.testbit sm 2)
  ∧ type_data s = Some (Z.testbit sm 3).
Proof.
  intros Hs. invert_Sector_init raw Hs.
  destruct (byte_val b15 =? 0); [by intros [= <-]|].
  destruct (byte_val b15 =? 1); [by intros [= <-]|].
  destruct (byte_val b15 =? 2); [|done].
  destruct (bool_of_int (Z.land (byte_val b18) 32));
    intros [= <-]; cbn [submode type_video type_audio type_data];
    intros [= <-]; rewrite <-!bool_of_int_land_pow2 by lia; done.
Qed.

(** C6: [typename] is ["video"] when [type_video] is set, else ["audio"]
    when [type_audio] is set, else ["data"] when [type_data] is set, else
    ["untyped"]; for a parsed sector with a [submode] the three flags are
    bits 1, 2 and 3 of it, so the lowest of these bits that is set decides.
    For a sector with [file] and [channel], a turn of the loop that ends
    without exception has made the directory [target_dir/typename/file]
    and appended the payload to [target_dir/typename/file/channel], and
    the turn ends without exception when its calls are carried out: the
    line of a verbose run, the directory and the file. *)
Theorem typename_priority :
  (∀ s,
     (truthy (type_video s) = true → typename s = "video")
     ∧ (truthy (type_video s) = false → truthy (type_audio s) = true →
        typename s = "audio")
     ∧ (truthy (type_video s) = false → truthy (type_audio s) = false →
        truthy (type_data s) = true → typename s = "data")
     ∧ (truthy (type_video s) = false → truthy (type_audio s) = false →
        truthy (type_data s) = false → typename s = "untyped"))
  ∧ (∀ raw s sm, Sector_init raw = Ok s → submode s = Some sm →
       typename s = if Z.testbit sm 1 then "video"
                    else if Z.testbit sm 2 then "audio"
                    else if Z.testbit sm 3 then "data"
                    else "untyped")
  ∧ (∀ raw s f c target_dir verbose n w,
       Sector_init raw = Ok s → file s = Some f → channel s = Some c →
       let dirname :=
         path_join (path_join target_dir (typename s)) (format_02x_int f) in
       let path := path_join dirname (format_02x_int c) in
       (∀ u w', main_body target_dir verbose n raw w = (Ok u, w') →
          made_dirs w' = (made_dirs w ++ [dirname])%list
          ∧ files w' = <[path := (default [] (files w !! path) ++ data s)%list]>
                         (files w))
       ∧ ((∀ line, verbose = true → Sector_str s = Ok line →
             out_fault w (format_6d n +:+ " " +:+ line) (stdout w) = None) →
          fs_fault w (Makedirs dirname) (made_dirs w) (files w) = None →
          fs_fault w (OpenAppend path (data s)) (made_dirs w ++ [dirname])%list
            (files w) = None →
          ∃ w', main_body target_dir verbose n raw w = (Ok tt, w')
                ∧ made_dirs w' = (made_dirs w ++ [dirname])%list
                ∧ files w' = <[path := (default [] (files w !! path) ++ data s)%list]>
                               (files w))).
Proof.
  split; [|split].
  - intros s. unfold typename.
    repeat split; intros; repeat match goal with H : truthy _ = _ |- _ => rewrite H end;
      done.
  - intros raw s sm Hs Hsm.
    destruct (Sector_init_type_flags raw s sm Hs Hsm) as (Hv & Ha & Hd).
    unfold typename. by rewrite Hv, Ha, Hd.
  - intros raw s f c target_dir verbose n w Hs Hf Hc dirname path.
    rewrite main_body_unfold, Hs. split.
    + intros u w' Hturn.
      destruct (write_sector_Ok raw s target_dir verbose n w u w' Hs Hturn)
        as (dirname' & path' & lines & Hpath & _ & Hdirs & Hfiles & _).
      assert (output_path target_dir s = Ok (dirname, path)) as Hpath'
        by (unfold output_path; by rewrite Hf, Hc).
      rewrite Hpath' in Hpath. injection Hpath as <- <-. done.
    + intros Hprint Hmkdir Hopen.
      destruct (write_sector_set raw s target_dir verbose n w f c Hs Hf Hc
                  Hprint Hmkdir Hopen) as (w' & Hw & Hfiles & Hdirs & _).
      exists w'. done.
Qed.

Lemma typename_priority_witness :
  match Sector_init block_video with
  | Ok s =>
    typename s = "video" ∧ type_data s = Some true
    ∧ ∃ w', main_body "out" false 0 block_video empty_world = (Ok tt, w')
            ∧ made_dirs w' = ["out/video/01"]
  | Raise _ => False
  end.
Proof.
  destruct typename_priority as (_ & Hbits & Hturn).
  destruct (Sector_init block_video) as [s|e] eqn:Hs.
  - assert (file s = Some 1) as Hf.
    { revert Hs. vm_compute. intros [= <-]. reflexivity. }
    assert (channel s = Some 31) as Hc.
    { revert Hs. vm_compute. intros [= <-]. reflexivity. }
    assert (typename s = "video") as Htype.
    { apply (Hbits block_video s 10 Hs).
      revert Hs. vm_compute. intros [= <-]. reflexivity. }
    split; [exact Htype|]. split.
    + revert Hs. vm_compute. intros [= <-]. reflexivity.
    + destruct (Hturn block_video s 1 31 "out" false 0 empty_world Hs Hf Hc)
        as (_ & Haccepted).
      destruct Haccepted as (w' & Hw & Hdirs & _).
      * intros line Hverbose. discriminate Hverbose.
      * rewrite Htype. reflexivity.
      * rewrite Htype. reflexivity.
      * exists w'. split; [exact Hw|]. rewrite Hdirs, Htype. reflexivity.
  - vm_compute in Hs. discriminate Hs.
Defined.

(** C8: on an empty stream [main] asks for the target directory and for
    nothing else, and processes no sector: when the directory is made it
    ends without exception and the script exits with status 0, otherwise
    it ends with the exception of [os.makedirs], as it does for the empty
    name and for the name of a regular file. The loop always ends; it
    ends without exception only when the stream is a whole number of
    sectors, so that the last read returned no byte. When the stream is
    whole sectors followed by at least one and fewer than 2352 bytes, the
    read after the last whole sector returns these bytes and [main] ends
    with the length error for them, in the world the whole sectors left;
    the script prints the message and exits with status 1, or ends with
    the exception of [print] when the message is refused. *)
Theorem main_end_of_stream :
  (∀ target_dir verbose w,
     (fs_fault w (Makedirs target_dir) (made_dirs w) (files w) = None →
      main [] target_dir verbose w = (Ok (Some 0), add_dir target_dir w)
      ∧ script [] target_dir verbose w = (Exit 0, add_dir target_dir w))
     ∧ (∀ f, fs_fault w (Makedirs target_dir) (made_dirs w) (files w) = Some f →
          main [] target_dir verbose w = (Raise (fault_exn f), w))
     ∧ (target_dir = EmptyString ∨ is_Some (files w !! target_dir) →
        ∃ f, main [] target_dir verbose w = (Raise (fault_exn f), w)))
  ∧ (∀ infile target_dir verbose w,
       (main infile target_dir verbose w).1 ≠ Ok None)
  ∧ (∀ infile target_dir verbose w n w',
       main infile target_dir verbose w = (Ok (Some n), w') →
       0 ≤ n ∧ len infile = n * SECTOR_SIZE
       ∧ (read (drop (Z.to_nat (n * SECTOR_SIZE)) infile) SECTOR_SIZE).1 = [])
  ∧ (∀ prefix tail target_dir verbose w n w',
       main prefix target_dir verbose w = (Ok (Some n), w') →
       0 < len tail < SECTOR_SIZE →
       main (prefix ++ tail)%list target_dir verbose w
       = (Raise (length_error tail), w')
       ∧ (out_fault w' (exn_str (length_error tail)) (stdout w') = None →
          script (prefix ++ tail)%list target_dir verbose w
          = (Exit 1, add_line (exn_str (length_error tail)) w'))
       ∧ (∀ f, out_fault w' (exn_str (length_error tail)) (stdout w') = Some f →
            script (prefix ++ tail)%list target_dir verbose w
            = (Uncaught (fault_exn f), w'))).
Proof.
  split; [|split; [|split]].
  - intros target_dir verbose w. split; [|split].
    + intros Hmkdir. unfold script. by rewrite main_unfold, Hmkdir.
    + intros f Hmkdir. by rewrite main_unfold, Hmkdir.
    + intros [f Hmkdir]%(makedirs_forbidden w target_dir (made_dirs w)).
      exists f. by rewrite main_unfold, Hmkdir.
  - intros infile target_dir verbose w. rewrite main_unfold.
    destruct (fs_fault w (Makedirs target_dir) (made_dirs w) (files w)); [done|].
    apply main_loop_ends. lia.
  - intros infile target_dir verbose w n w'.
    intros [_ [Hn Hlen]%main_loop_break]%main_Ok_loop. rewrite Z.sub_0_r in Hlen.
    split; [done|]. split; [done|].
    rewrite drop_ge; [done|]. unfold len in Hlen. lia.
  - intros prefix tail target_dir verbose w n w'.
    intros [Hmkdir Hprefix]%main_Ok_loop Htail.
    assert (main (prefix ++ tail)%list target_dir verbose w
            = (Raise (length_error tail), w')) as Hmain.
    { rewrite main_unfold, Hmkdir.
      rewrite (main_loop_app _ _ _ _ _ _ _ _ _ _ Hprefix) by lia.
      rewrite main_loop_unfold.
      assert (read tail SECTOR_SIZE = (tail, [])) as ->.
      { unfold read, len in *. rewrite take_ge, drop_ge by lia. done. }
      cbn [fst snd].
      destruct tail as [|b bs]; [unfold len in Htail; simpl in Htail; lia|].
      rewrite main_body_unfold. unfold Sector_init.
      destruct (Z.eqb_spec (len (b :: bs)) SECTOR_SIZE) as [Heq|_]; [lia|]. done. }
    split; [exact Hmain|].
    unfold script. rewrite Hmain. unfold length_error at 1 3. unfold print.
    split; [by intros -> | by intros f ->].
Qed.

Lemma main_end_of_stream_witness :
  main [] "out" false empty_world = (Ok (Some 0), add_dir "out" empty_world)
  ∧ main [] "out" false (file_in_place_world "out")
    = (Raise (OSError FileExistsError "[Errno 17] File exists: 'out'"),
       file_in_place_world "out")
  ∧ main [] EmptyString false empty_world
    = (Raise (OSError FileNotFoundError "[Errno 2] No such file or directory: ''"),
       empty_world)
  ∧ (main block_video "out" false empty_world).1 = Ok (Some 1)
  ∧ len block_video = 1 * SECTOR_SIZE
  ∧ (main (block_video ++ take 7 block_video)%list "out" false empty_world).1
    = Raise (length_error (take 7 block_video)).
Proof.
  destruct main_end_of_stream as (Hempty & _ & Hbreak & Hshort).
  split; [|split; [|split; [|split; [|split]]]].
  - apply (Hempty "out" false empty_world). reflexivity.
  - apply (proj1 (proj2 (Hempty "out" false (file_in_place_world "out")))
             (Refused FileExistsError "[Errno 17] File exists: 'out'")).
    vm_compute. reflexivity.
  - apply (proj1 (proj2 (Hempty EmptyString false empty_world))
             (Refused FileNotFoundError "[Errno 2] No such file or directory: ''")).
    vm_compute. reflexivity.
  - by vm_compute.
  - apply (Hbreak block_video "out" false empty_world 1
             (main block_video "out" false empty_world).2).
    vm_compute. reflexivity.
  - destruct (Hshort block_video (take 7 block_video) "out" false empty_world 1
                (main block_video "out" false empty_world).2) as [Hmain _].
    + vm_compute. reflexivity.
    + vm_compute. split; reflexivity.
    + rewrite Hmain. reflexivity.
Defined.

(** C9: the path is formatted from [file] and [channel] whatever the mode
    of the sector, and the format specification raises for an attribute
    that is unset. So when the stream is whole sectors that [main]
    processes, followed by a block that parses to a sector of mode 0 or 1,
    [main] ends with an exception in the turn for this block: no directory
    is made and no file is written beyond those of the sectors before it.
    The exception is that of the format specification in a run that is not
    verbose, and in a verbose run whose line for this sector is printed; a
    verbose run whose line for this sector is refused ends with the
    exception of [print], in the world the sectors before left. *)
Theorem main_unset_file :
  (∀ target_dir s, file s = None ∨ channel s = None →
     output_path target_dir s
     = Raise (TypeError "unsupported format string passed to NoneType.__format__"))
  ∧ (∀ prefix raw rest s target_dir verbose w n w',
       main prefix target_dir verbose w = (Ok (Some n), w') →
       Sector_init raw = Ok s → mode s = 0 ∨ mode s = 1 →
       ∃ e w'', main (prefix ++ raw ++ rest)%list target_dir verbose w = (Raise e, w'')
                ∧ files w'' = files w' ∧ made_dirs w'' = made_dirs w'
                ∧ ((∀ line, verbose = true → Sector_str s = Ok line →
                      out_fault w' (format_6d n +:+ " " +:+ line) (stdout w') = None) →
                   e = TypeError "unsupported format string passed to NoneType.__format__")
                ∧ (∀ line f, verbose = true → Sector_str s = Ok line →
                     out_fault w' (format_6d n +:+ " " +:+ line) (stdout w') = Some f →
                     e = fault_exn f ∧ w'' = w')).
Proof.
  split.
  - intros target_dir s [Hnone|Hnone]; unfold output_path.
    + by rewrite Hnone.
    + rewrite Hnone. by destruct (file s).
  - intros prefix raw rest s target_dir verbose w n w'
      [Hmkdir Hprefix]%main_Ok_loop Hs Hmode.
    rewrite main_unfold, Hmkdir.
    rewrite (main_loop_app _ _ _ _ _ _ _ _ _ _ Hprefix) by lia.
    destruct (Sector_init_Ok_checks raw s Hs) as [Hlen _].
    rewrite main_loop_unfold, (read_app raw rest Hlen). cbn [fst snd].
    destruct raw as [|b bs]; [done|].
    rewrite main_body_unfold, Hs.
    destruct (Sector_init_attributes _ s Hs) as [(_ & Hfile & _) | (Hm & _)]; [|lia].
    destruct (write_sector_unset _ s target_dir verbose n w' Hs Hfile)
      as (e & w'' & Hturn & Hfiles & Hdirs & _ & _ & He).
    exists e, w''. rewrite Hturn.
    split; [done|]. split; [done|]. split; [done|]. split; [exact He|].
    intros line f -> Hline Hrefused.
    rewrite (write_sector_refused _ s target_dir n w' line f Hs Hline Hrefused)
      in Hturn.
    by injection Hturn as <- <-.
Qed.

Lemma main_unset_file_witness :
  match Sector_init block_mode1 with
  | Ok s =>
    ∃ w'', main (block_video ++ block_mode1 ++ block_video)%list "out" false empty_world
           = (Raise (TypeError "unsupported format string passed to NoneType.__format__"), w'')
           ∧ files w'' = files (main block_video "out" false empty_world).2
           ∧ made_dirs w'' = ["out"; "out/video/01"]
  | Raise _ => False
  end.
Proof.
  destruct main_unset_file as [_ Hmain].
  destruct (Sector_init block_mode1) as [s|e] eqn:Hs.
  - destruct (Hmain block_video block_mode1 block_video s "out" false empty_world 1
                (main block_video "out" false empty_world).2)
      as (e & w'' & Hw & Hfiles & Hdirs & He & _).
    + vm_compute. reflexivity.
    + exact Hs.
    + right. revert Hs. vm_compute. intros [= <-]. reflexivity.
    + exists w''. rewrite He in Hw.
      * split; [exact Hw|]. split; [exact Hfiles | exact Hdirs].
      * intros line Hverbose. discriminate Hverbose.
  - vm_compute in Hs. discriminate Hs.
Defined.
End driver_properties.

(** ** More on the sector parser *)

(** Proves a goal about the sector [s] of [Hs : Sector_init blk = Ok s],
    for a block [blk] that is given, by evaluating the parser on it. *)
Ltac by_parsing Hs :=
  lazymatch type of Hs with
  | Sector_init ?blk = Ok ?s =>
    pattern s;
    lazymatch goal with
    | |- ?P s =>
      let H := fresh in
      assert (match Sector_init blk with Ok s' => P s' | Raise _ => True end) as H
        by (vm_compute; first [reflexivity | discriminate | done]);
      rewrite Hs in H; exact H
    end
  end.

(** Closes a goal with [Hs : Sector_init blk = Raise e] for a block that
    is parsed. *)
Ltac parse_succeeds Hs :=
  lazymatch type of Hs with
  | Sector_init ?blk = Raise _ =>
    let H := fresh in
    assert (match Sector_init blk with Ok _ => true | Raise _ => false end = true) as H
      by (vm_compute; reflexivity);
    rewrite Hs in H; discriminate H
  end.

Section parser_layout.
Implicit Types (raw data : bytes) (s : Sector).

Lemma slice_app data (i j k : Z) :
  0 ≤ i ≤ j → j ≤ k → k ≤ len data →
  slice data i k = (slice data i j ++ slice data j k)%list.
Proof.
  intros Hi Hj Hk. rewrite !slice_in_range by lia.
  replace (Z.to_nat j) with (Z.to_nat i + Z.to_nat (j - i))%nat by lia.
  rewrite <-drop_drop, take_take_drop. f_equal. lia.
Qed.

Lemma slice_all data : slice data 0 (len data) = data.
Proof.
  rewrite slice_in_range by (unfold len; lia).
  rewrite drop_0. apply take_ge. unfold len. lia.
Qed.

(** The cuts of a block of mode 1 and of the two forms of mode 2. *)
Lemma block_cuts raw :
  len raw = SECTOR_SIZE →
  raw = (slice raw 0 16 ++ slice raw 16 2064 ++ slice raw 2064 2068
         ++ slice raw 2068 2076 ++ slice raw 2076 2352)%list
  ∧ raw = (slice raw 0 24 ++ slice raw 24 2072 ++ slice raw 2072 2076
           ++ slice raw 2076 2352)%list
  ∧ raw = (slice raw 0 24 ++ slice raw 24 2348 ++ slice raw 2348 2352)%list.
Proof.
  intros Hlen. pose proof SECTOR_SIZE_eq as Hsize.
  assert (slice raw 0 2352 = raw) as Hall.
  { rewrite <-Hsize, <-Hlen. apply slice_all. }
  split; [|split].
  - rewrite <-(slice_app raw 2068 2076 2352), <-(slice_app raw 2064 2068 2352),
      <-(slice_app raw 16 2064 2352), <-(slice_app raw 0 16 2352) by lia.
    by rewrite Hall.
  - rewrite <-(slice_app raw 2072 2076 2352), <-(slice_app raw 24 2072 2352),
      <-(slice_app raw 0 24 2352) by lia.
    by rewrite Hall.
  - rewrite <-(slice_app raw 24 2348 2352), <-(slice_app raw 0 24 2352) by lia.
    by rewrite Hall.
Qed.

(** X1: the attributes of a parsed sector are consecutive pieces of its
    block. A block of mode 1 is its first 16 bytes, [data], [checksum], the
    8 bytes from 2068 that no attribute holds, and [ecc]; a block of mode 2
    form 1 is its first 24 bytes, [data], [checksum] and [ecc]; a block of
    mode 2 form 2 is its first 24 bytes, [data] and [checksum]. *)
Theorem sector_layout raw s :
  Sector_init raw = Ok s →
  (mode s = 1 →
   ∃ cs e, checksum s = Some cs ∧ ecc s = Some e
           ∧ raw = (slice raw 0 16 ++ data s ++ cs ++ slice raw 2068 2076 ++ e)%list)
  ∧ (mode s = 2 → form s = Some 1 →
     ∃ cs e, checksum s = Some cs ∧ ecc s = Some e
             ∧ raw = (slice raw 0 24 ++ data s ++ cs ++ e)%list)
  ∧ (mode s = 2 → form s = Some 2 →
     ∃ cs, checksum s = Some cs ∧ ecc s = None
           ∧ raw = (slice raw 0 24 ++ data s ++ cs)%list).
Proof.
  intros Hs. destruct (Sector_init_Ok_checks raw s Hs) as [Hlen0 _].
  destruct (block_cuts raw Hlen0) as (Hmode1 & Hform1 & Hform2).
  assert (∀ i, 0 ≤ i ≤ 2352 → slice_from raw i = slice raw i 2352) as Hfrom.
  { intros i Hi. rewrite slice_from_slice by (by rewrite Hlen0). by rewrite Hlen0. }
  invert_Sector_init raw Hs.
  destruct (Z.eqb_spec (byte_val b15) 0) as [E0|E0].
  { intros [= <-]. cbn [mode]. repeat split; intros; lia. }
  destruct (Z.eqb_spec (byte_val b15) 1) as [E1|E1].
  { intros [= <-]. cbn [mode form checksum ecc data]. split; [|split; intros; lia].
    intros _. eexists _, _. split; [done|]. split; [done|].
    rewrite Hfrom by lia. exact Hmode1. }
  destruct (Z.eqb_spec (byte_val b15) 2) as [E2|E2]; [|done].
  destruct (bool_of_int (Z.land (byte_val b18) 32));
    intros [= <-]; cbn [mode form checksum ecc data];
    (split; [intros; lia|]); split; intros _ Hform; try done.
  - eexists. split; [done|]. split; [done|]. rewrite Hfrom by lia. exact Hform2.
  - eexists _, _. split; [done|]. split; [done|]. rewrite Hfrom by lia. exact Hform1.
Qed.

Lemma sector_layout_witness :
  match Sector_init block_audio with
  | Ok s =>
    ∃ cs, checksum s = Some cs ∧ ecc s = None
          ∧ block_audio = (slice block_audio 0 24 ++ data s ++ cs)%list
  | Raise _ => False
  end.
Proof.
  destruct (Sector_init block_audio) as [s|e] eqn:Hs.
  - destruct (sector_layout block_audio s Hs) as (_ & _ & Hform2).
    apply Hform2; by_parsing Hs.
  - parse_succeeds Hs.
Defined.
End parser_layout.

Section parser_invariants.
Implicit Types (raw data : bytes) (s : Sector) (b : byte).

Lemma byte_val_range b : 0 ≤ byte_val b ≤ 255.
Proof. unfold byte_val. pose proof (Byte.to_N_bounded b). lia. Qed.

Lemma bcd_to_int_div_mod (x : Z) : bcd_to_int x = x `mod` 16 + x `div` 16 * 10.
Proof.
  unfold bcd_to_int. change 15 with (Z.ones 4). rewrite Z.land_ones by lia.
  by rewrite Z.shiftr_div_pow2 by lia.
Qed.

Lemma bcd_to_int_byte_range b : 0 ≤ bcd_to_int (byte_val b) ≤ 165.
Proof.
  rewrite bcd_to_int_div_mod. pose proof (byte_val_range b) as Hb.
  pose proof (Z.mod_pos_bound (byte_val b) 16 ltac:(lia)).
  assert (0 ≤ byte_val b `div` 16 < 16).
  { split; [apply Z.div_pos; lia|]. apply Z.div_lt_upper_bound; lia. }
  lia.
Qed.

(** X2: which attributes a parsed sector has follows from its mode, which
    is 0, 1 or 2: [data_size] is 0 for mode 0, 2048 for mode 1 and for form
    1, 2324 for form 2; the twelve attributes of the subheader are set for
    mode 2 and unset otherwise; [checksum], of 4 bytes, is set unless the
    mode is 0; [ecc], of 276 bytes, is set exactly when [data_size] is
    2048. *)
Theorem sector_attributes raw s :
  Sector_init raw = Ok s →
  (mode s = 0 ∨ mode s = 1 ∨ mode s = 2)
  ∧ data_size s = (if mode s =? 0 then 0
                   else if mode s =? 1 then 2048
                   else if eq_int (form s) 2 then 2324 else 2048)
  ∧ (mode s = 2 →
     is_Some (file s) ∧ is_Some (channel s) ∧ is_Some (submode s)
     ∧ is_Some (codinginfo s) ∧ is_Some (eor s) ∧ is_Some (type_video s)
     ∧ is_Some (type_audio s) ∧ is_Some (type_data s) ∧ is_Some (trigger s)
     ∧ is_Some (realtime s) ∧ is_Some (eof s)
     ∧ (form s = Some 1 ∨ form s = Some 2))
  ∧ (mode s ≠ 2 →
     file s = None ∧ channel s = None ∧ submode s = None
     ∧ codinginfo s = None ∧ eor s = None ∧ type_video s = None
     ∧ type_audio s = None ∧ type_data s = None ∧ trigger s = None
     ∧ realtime s = None ∧ eof s = None ∧ form s = None)
  ∧ (checksum s = None ↔ mode s = 0)
  ∧ (∀ cs, checksum s = Some cs → len cs = 4)
  ∧ (is_Some (ecc s) ↔ data_size s = 2048)
  ∧ (∀ e, ecc s = Some e → len e = 276).
Proof.
  intros Hs. destruct (Sector_init_Ok_checks raw s Hs) as [Hlen0 _].
  assert (∀ i j, 0 ≤ i ≤ j → j ≤ 2352 → len (slice raw i j) = j - i) as Hslice.
  { intros i j Hi Hj. apply length_slice; [done|]. by rewrite Hlen0. }
  assert (∀ i, 0 ≤ i ≤ 2352 → slice_from raw i = slice raw i 2352) as Hfrom.
  { intros i Hi. rewrite slice_from_slice by (by rewrite Hlen0). by rewrite Hlen0. }
  invert_Sector_init raw Hs.
  destruct (Z.eqb_spec (byte_val b15) 0) as [E0|E0].
  { intros [= <-]. cbn [mode data_size form file channel submode codinginfo eor
      type_video type_audio type_data trigger realtime eof checksum ecc].
    rewrite E0. cbn [Z.eqb].
    split; [by left|]. split; [done|]. split; [intros; lia|]. split; [done|].
    split; [done|]. split; [done|]. split; [|done].
    split; [by intros [? ?] | done]. }
  destruct (Z.eqb_spec (byte_val b15) 1) as [E1|E1].
  { intros [= <-]. cbn [mode data_size form file channel submode codinginfo eor
      type_video type_audio type_data trigger realtime eof checksum ecc].
    rewrite E1. cbn [Z.eqb Pos.eqb].
    split; [by right; left|]. split; [done|]. split; [intros; lia|]. split; [done|].
    split; [split; [done | lia]|].
    split; [intros cs [= <-]; by apply Hslice|].
    split; [by split|].
    intros e [= <-]. rewrite Hfrom by lia. by apply Hslice. }
  destruct (Z.eqb_spec (byte_val b15) 2) as [E2|E2]; [|done].
  destruct (bool_of_int (Z.land (byte_val b18) 32));
    intros [= <-]; cbn [mode data_size form file channel submode codinginfo eor
      type_video type_audio type_data trigger realtime eof checksum ecc];
    rewrite E2; cbn [Z.eqb Pos.eqb eq_int];
    (split; [by right; right|]); (split; [done|]);
    (split; [intros _; repeat (split; [by eexists|]); by (left + right)|]);
    (split; [intros; lia|]); (split; [split; [done | lia]|]).
  - split; [intros cs [= <-]; rewrite Hfrom by lia; by apply Hslice|].
    split; [split; [by intros [? ?] | done] | done].
  - split; [intros cs [= <-]; by apply Hslice|].
    split; [by split|].
    intros e [= <-]. rewrite Hfrom by lia. by apply Hslice.
Qed.

Lemma sector_attributes_witness :
  match Sector_init block_mode1 with
  | Ok s => file s = None ∧ form s = None
  | Raise _ => False
  end.
Proof.
  destruct (Sector_init block_mode1) as [s|e] eqn:Hs.
  - destruct (sector_attributes block_mode1 s Hs) as (_ & _ & _ & Hunset & _).
    assert (mode s ≠ 2) as Hmode by by_parsing Hs.
    destruct (Hunset Hmode) as (Hfile & _ & _ & _ & _ & _ & _ & _ & _ & _ & _ & Hform).
    exact (conj Hfile Hform).
  - parse_succeeds Hs.
Defined.

(** X3: every number in a parsed sector is bounded by the byte it comes
    from: [minute], [second] and [sector] are between 0 and 165 (not 99: the
    nibbles are not checked), [file], [submode] and [codinginfo] between 0
    and 255, [channel] between 0 and 31. *)
Theorem sector_ranges raw s :
  Sector_init raw = Ok s →
  (0 ≤ minute s ≤ 165 ∧ 0 ≤ second s ≤ 165 ∧ 0 ≤ sector s ≤ 165)
  ∧ (∀ f, file s = Some f → 0 ≤ f ≤ 255)
  ∧ (∀ c, channel s = Some c → 0 ≤ c ≤ 31)
  ∧ (∀ sm, submode s = Some sm → 0 ≤ sm ≤ 255)
  ∧ (∀ ci, codinginfo s = Some ci → 0 ≤ ci ≤ 255).
Proof.
  intros Hs. invert_Sector_init raw Hs.
  pose proof (bcd_to_int_byte_range b12). pose proof (bcd_to_int_byte_range b13).
  pose proof (bcd_to_int_byte_range b14). pose proof (byte_val_range b16).
  pose proof (byte_val_range b18). pose proof (byte_val_range b19).
  pose proof (land_31_range (byte_val b17)).
  destruct (byte_val b15 =? 0); [by intros [= <-]|].
  destruct (byte_val b15 =? 1); [by intros [= <-]|].
  destruct (byte_val b15 =? 2); [|done].
  destruct (bool_of_int _); intros [= <-];
    cbn [minute second sector file channel submode codinginfo];
    (split; [done|]); (do 3 (split; [intros ? [= <-]; lia|])); intros ? [= <-]; lia.
Qed.

Lemma sector_ranges_witness :
  match Sector_init block_video with
  | Ok s => 0 ≤ minute s ≤ 165 ∧ 0 ≤ second s ≤ 165 ∧ 0 ≤ sector s ≤ 165
  | Raise _ => False
  end.
Proof.
  destruct (Sector_init block_video) as [s|e] eqn:Hs.
  - destruct (sector_ranges block_video s Hs) as [Haddr _]. exact Haddr.
  - parse_succeeds Hs.
Defined.

(** X4: [bcd_to_int] decodes packed decimal: the byte [16 * (n / 10) + n
    mod 10] gives back [n] for every [n] from 0 to 99, and two bytes with
    decimal nibbles that decode to the same number are the same byte. On
    all bytes the result is between 0 and 165 and the decoding is not
    one-to-one: 0x0a and 0x10 both give 10. *)
Theorem bcd_to_int_decimal :
  (∀ n, 0 ≤ n ≤ 99 → bcd_to_int (16 * (n `div` 10) + n `mod` 10) = n)
  ∧ (∀ hi lo hi' lo',
       0 ≤ hi ≤ 9 → 0 ≤ lo ≤ 9 → 0 ≤ hi' ≤ 9 → 0 ≤ lo' ≤ 9 →
       bcd_to_int (16 * hi + lo) = bcd_to_int (16 * hi' + lo') →
       hi = hi' ∧ lo = lo')
  ∧ (∀ b, 0 ≤ bcd_to_int (byte_val b) ≤ 165)
  ∧ (∀ hi lo, 0 ≤ hi ≤ 9 → 0 ≤ lo ≤ 9 → 0 ≤ bcd_to_int (16 * hi + lo) ≤ 99)
  ∧ bcd_to_int 0x0a = bcd_to_int 0x10.
Proof.
  assert (∀ hi lo, 0 ≤ hi → 0 ≤ lo < 16 → bcd_to_int (16 * hi + lo) = lo + hi * 10)
    as Hnibbles.
  { intros hi lo Hhi Hlo. rewrite bcd_to_int_div_mod.
    assert ((16 * hi + lo) `div` 16 = hi) as ->
      by (symmetry; apply (Z.div_unique _ 16 hi lo); lia).
    assert ((16 * hi + lo) `mod` 16 = lo) as ->
      by (symmetry; apply (Z.mod_unique _ 16 hi lo); lia).
    done. }
  split; [|split; [|split; [|split]]].
  - intros n Hn.
    pose proof (Z.mod_pos_bound n 10 ltac:(lia)).
    pose proof (Z.div_pos n 10 ltac:(lia) ltac:(lia)).
    rewrite Hnibbles by lia. pose proof (Z.div_mod n 10 ltac:(lia)). lia.
  - intros hi lo hi' lo' Hhi Hlo Hhi' Hlo'. rewrite !Hnibbles by lia. lia.
  - apply bcd_to_int_byte_range.
  - intros hi lo Hhi Hlo. rewrite Hnibbles by lia. lia.
  - done.
Qed.

Lemma bcd_to_int_decimal_witness :
  bcd_to_int (16 * (42 `div` 10) + 42 `mod` 10) = 42.
Proof. apply bcd_to_int_decimal. lia. Defined.
End parser_invariants.

(** ** Output paths *)

Section output_paths.
Implicit Types (raw : bytes) (s : Sector) (target_dir path a b : string).

Lemma string_app_assoc a b (c : string) : (a +:+ b) +:+ c = a +:+ (b +:+ c).
Proof.
  induction a as [|x a IH]; [done|].
  change (String x ((a +:+ b) +:+ c) = String x (a +:+ (b +:+ c))). by f_equal.
Qed.

Lemma list_ascii_of_string_app a b :
  list_ascii_of_string (a +:+ b)
  = (list_ascii_of_string a ++ list_ascii_of_string b)%list.
Proof. induction a as [|x a IH]; [done|]. simpl. by f_equal. Qed.

Lemma endswith_sep_app a b :
  b ≠ EmptyString → endswith_sep (a +:+ b) = endswith_sep b.
Proof.
  intros Hb. unfold endswith_sep. rewrite list_ascii_of_string_app, last_app.
  destruct b as [|x b]; [done|].
  cbn [list_ascii_of_string].
  destruct (last (x :: list_ascii_of_string b)) eqn:Hlast; [done|].
  by apply last_None in Hlast.
Qed.

Lemma string_app_nonempty a b : b ≠ EmptyString → a +:+ b ≠ EmptyString.
Proof. intros Hb. by destruct a. Qed.

(** Joining a component that is not empty, does not begin with the
    separator and does not end with it. *)
Lemma path_join_component path b :
  b ≠ EmptyString → String.prefix "/" b = false → endswith_sep b = false →
  path_join path b = with_sep path +:+ b
  ∧ with_sep (path_join path b) = path_join path b +:+ "/".
Proof.
  intros Hb Hprefix Hsep.
  assert (path_join path b = with_sep path +:+ b) as Hjoin.
  { unfold path_join, with_sep. rewrite Hprefix.
    destruct (String.eqb path EmptyString || endswith_sep path); [done|].
    by rewrite string_app_assoc. }
  split; [done|]. rewrite Hjoin. unfold with_sep at 1.
  rewrite endswith_sep_app, Hsep, orb_false_r by done.
  destruct (String.eqb_spec (with_sep path +:+ b) EmptyString) as [Hempty|_]; [|done].
  by apply string_app_nonempty in Hempty.
Qed.

Lemma typename_cases s :
  typename s = "video" ∨ typename s = "audio" ∨ typename s = "data"
  ∨ typename s = "untyped".
Proof.
  unfold typename.
  destruct (truthy (type_video s)); [by left|].
  destruct (truthy (type_audio s)); [by right; left|].
  destruct (truthy (type_data s)); [by right; right; left | by right; right; right].
Qed.

(** The two hexadecimal digits of a byte. *)
Lemma format_02x_int_digits (i : Z) :
  0 ≤ i ≤ 255 →
  ∃ x y, format_02x_int i = String x (String y EmptyString)
         ∧ x ≠ "/"%char ∧ y ≠ "/"%char.
Proof.
  intros Hi.
  assert (forallb (λ n, match format_02x_int (Z.of_nat n) with
                        | String x (String y EmptyString) =>
                          negb (Ascii.eqb x "/") && negb (Ascii.eqb y "/")
                        | _ => false
                        end) (seq 0 256) = true) as Hall by (by vm_compute).
  rewrite forallb_forall in Hall.
  specialize (Hall (Z.to_nat i)). rewrite Z2Nat.id in Hall by lia.
  destruct (format_02x_int i) as [|x [|y [|z rest]]];
    try (by discriminate Hall; apply in_seq; lia).
  exists x, y. split; [done|].
  assert (negb (Ascii.eqb x "/") && negb (Ascii.eqb y "/") = true) as Hxy.
  { apply Hall, in_seq. lia. }
  apply andb_true_iff in Hxy as [Hx Hy].
  split; intros ->; by rewrite Ascii.eqb_refl in *.
Qed.

Lemma format_02x_int_inj (i j : Z) :
  0 ≤ i ≤ 255 → 0 ≤ j ≤ 255 → format_02x_int i = format_02x_int j → i = j.
Proof.
  intros Hi Hj Heq.
  pose (read_hex := λ text : string,
          match HexadecimalString.NilZero.uint_of_string text with
          | Some u => Z.of_N (N.of_hex_uint u)
          | None => -1
          end).
  assert (forallb (λ n, read_hex (format_02x_int (Z.of_nat n)) =? Z.of_nat n)
            (seq 0 256) = true) as Hall by (by vm_compute).
  rewrite forallb_forall in Hall.
  pose proof (Hall (Z.to_nat i) ltac:(apply in_seq; lia)) as Hri.
  pose proof (Hall (Z.to_nat j) ltac:(apply in_seq; lia)) as Hrj.
  rewrite Z2Nat.id in Hri, Hrj by lia.
  apply Z.eqb_eq in Hri, Hrj. rewrite <-Hri, <-Hrj. by rewrite Heq.
Qed.

(** The path of a sector whose [file] and [channel] are byte values. *)
Lemma output_path_bytes target_dir s f c :
  file s = Some f → channel s = Some c → 0 ≤ f ≤ 255 → 0 ≤ c ≤ 255 →
  output_path target_dir s
  = Ok (with_sep target_dir +:+ typename s +:+ "/" +:+ format_02x_int f,
        with_sep target_dir +:+ typename s +:+ "/" +:+ format_02x_int f
          +:+ "/" +:+ format_02x_int c).
Proof.
  intros Hf Hc Hfr Hcr. unfold output_path. rewrite Hf, Hc.
  cbn [format_02x mbind result_bind].
  destruct (format_02x_int_digits f Hfr) as (x & y & -> & Hx & Hy).
  destruct (format_02x_int_digits c Hcr) as (x' & y' & -> & Hx' & Hy').
  assert (∀ u v, u ≠ "/"%char → v ≠ "/"%char →
            String u (String v EmptyString) ≠ EmptyString
            ∧ String.prefix "/" (String u (String v EmptyString)) = false
            ∧ endswith_sep (String u (String v EmptyString)) = false) as Hdigits.
  { intros u v Hu Hv. split; [done|]. split.
    - unfold String.prefix. destruct (ascii_dec "/"%char u) as [<-|_]; done.
    - unfold endswith_sep. cbn. by apply Ascii.eqb_neq. }
  assert (typename s ≠ EmptyString ∧ String.prefix "/" (typename s) = false
          ∧ endswith_sep (typename s) = false) as (Ht1 & Ht2 & Ht3).
  { destruct (typename_cases s) as [-> | [-> | [-> | ->]]]; done. }
  destruct (path_join_component target_dir (typename s) Ht1 Ht2 Ht3) as [Hj1 Hs1].
  destruct (Hdigits x y Hx Hy) as (Hd1 & Hd2 & Hd3).
  destruct (path_join_component (path_join target_dir (typename s)) _ Hd1 Hd2 Hd3)
    as [Hj2 Hs2].
  destruct (Hdigits x' y' Hx' Hy') as (He1 & He2 & He3).
  destruct (path_join_component
              (path_join (path_join target_dir (typename s)) (String x (String y EmptyString)))
              _ He1 He2 He3) as [Hj3 _].
  rewrite Hj3, Hs2, Hj2, Hs1, Hj1. by rewrite !string_app_assoc.
Qed.

(** A parsed sector of mode 2 has a [file] and a [channel] of one byte. *)
Lemma Sector_init_file_channel raw s :
  Sector_init raw = Ok s → mode s = 2 →
  ∃ f c, file s = Some f ∧ channel s = Some c ∧ 0 ≤ f ≤ 255 ∧ 0 ≤ c ≤ 31.
Proof.
  intros Hs. invert_Sector_init raw Hs.
  pose proof (byte_val_range b16). pose proof (land_31_range (byte_val b17)).
  destruct (Z.eqb_spec (byte_val b15) 0); [intros [= <-]; cbn [mode]; lia|].
  destruct (Z.eqb_spec (byte_val b15) 1); [intros [= <-]; cbn [mode]; lia|].
  destruct (Z.eqb_spec (byte_val b15) 2); [|done].
  destruct (bool_of_int _); intros [= <-] _; by eexists _, _.
Qed.

(** X5: the file a parsed sector of mode 2 is appended to is
    [target_dir/typename/xx/yy], where [xx] and [yy] are [file] and
    [channel] in two hexadecimal digits each; the separator after
    [target_dir] is left out when [target_dir] is empty or ends with one.
    The directory made for it is the path without [/yy]. *)
Theorem output_path_shape raw s target_dir :
  Sector_init raw = Ok s → mode s = 2 →
  ∃ f c,
    file s = Some f ∧ channel s = Some c
    ∧ output_path target_dir s
      = Ok (with_sep target_dir +:+ typename s +:+ "/" +:+ format_02x_int f,
            with_sep target_dir +:+ typename s +:+ "/" +:+ format_02x_int f
              +:+ "/" +:+ format_02x_int c)
    ∧ String.length (format_02x_int f) = 2%nat
    ∧ String.length (format_02x_int c) = 2%nat.
Proof.
  intros Hs Hmode.
  destruct (Sector_init_file_channel raw s Hs Hmode) as (f & c & Hf & Hc & Hfr & Hcr).
  exists f, c. split; [done|]. split; [done|].
  split; [apply output_path_bytes; (done || lia)|].
  destruct (format_02x_int_digits f Hfr) as (x & y & -> & _).
  destruct (format_02x_int_digits c ltac:(lia)) as (x' & y' & -> & _).
  done.
Qed.

Lemma output_path_shape_witness :
  match Sector_init block_video with
  | Ok s => output_path "out" s = Ok ("out/video/01", "out/video/01/1f")
  | Raise _ => False
  end.
Proof.
  destruct (Sector_init block_video) as [s|e] eqn:Hs.
  - destruct (output_path_shape block_video s "out" Hs) as (f & c & Hf & Hc & Hpath & _);
      [by_parsing Hs|].
    assert (file s = Some 1) as Hf' by by_parsing Hs.
    assert (channel s = Some 31) as Hc' by by_parsing Hs.
    assert (typename s = "video") as Htype by by_parsing Hs.
    rewrite Hf' in Hf. injection Hf as <-. rewrite Hc' in Hc. injection Hc as <-.
    rewrite Hpath, Htype. vm_compute. reflexivity.
  - parse_succeeds Hs.
Defined.

(** X6: for one target directory, two parsed sectors of mode 2 are appended
    to the same file only when they have the same [typename], [file] and
    [channel], and have the same directory made only when they have the
    same [typename] and [file]: two streams never share a file. *)
Theorem output_path_injective raw1 raw2 s1 s2 target_dir :
  Sector_init raw1 = Ok s1 → Sector_init raw2 = Ok s2 →
  mode s1 = 2 → mode s2 = 2 →
  ∃ d1 p1 d2 p2,
    output_path target_dir s1 = Ok (d1, p1)
    ∧ output_path target_dir s2 = Ok (d2, p2)
    ∧ (p1 = p2 →
       typename s1 = typename s2 ∧ file s1 = file s2 ∧ channel s1 = channel s2)
    ∧ (d1 = d2 → typename s1 = typename s2 ∧ file s1 = file s2).
Proof.
  intros Hs1 Hs2 Hm1 Hm2.
  destruct (Sector_init_file_channel raw1 s1 Hs1 Hm1)
    as (f1 & c1 & Hf1 & Hc1 & Hfr1 & Hcr1).
  destruct (Sector_init_file_channel raw2 s2 Hs2 Hm2)
    as (f2 & c2 & Hf2 & Hc2 & Hfr2 & Hcr2).
  eexists _, _, _, _.
  split; [apply (output_path_bytes target_dir s1 f1 c1); (done || lia)|].
  split; [apply (output_path_bytes target_dir s2 f2 c2); (done || lia)|].
  rewrite Hf1, Hf2, Hc1, Hc2.
  pose proof (format_02x_int_inj f1 f2 Hfr1 Hfr2) as Hfinj.
  pose proof (format_02x_int_inj c1 c2 ltac:(lia) ltac:(lia)) as Hcinj.
  destruct (format_02x_int_digits f1 Hfr1) as (x1 & y1 & Hx1 & _).
  destruct (format_02x_int_digits f2 Hfr2) as (x2 & y2 & Hx2 & _).
  rewrite Hx1, Hx2 in *.
  split.
  - intros Heq%String.app_inj.
    destruct (typename_cases s1) as [E1 | [E1 | [E1 | E1]]];
      destruct (typename_cases s2) as [E2 | [E2 | [E2 | E2]]];
      rewrite E1, E2 in Heq |- *;
      try discriminate Heq; cbv [String.append] in Heq; simplify_eq;
      (split; [done|]); rewrite Hfinj, Hcinj by done; done.
  - intros Heq%String.app_inj.
    destruct (typename_cases s1) as [E1 | [E1 | [E1 | E1]]];
      destruct (typename_cases s2) as [E2 | [E2 | [E2 | E2]]];
      rewrite E1, E2 in Heq |- *;
      try discriminate Heq; cbv [String.append] in Heq; simplify_eq;
      (split; [done|]); rewrite Hfinj by done; done.
Qed.

Lemma output_path_injective_witness :
  match Sector_init block_video, Sector_init block_audio with
  | Ok s1, Ok s2 =>
    ∃ d1 p1 d2 p2,
      output_path "out" s1 = Ok (d1, p1) ∧ output_path "out" s2 = Ok (d2, p2)
      ∧ (p1 = p2 →
         typename s1 = typename s2 ∧ file s1 = file s2 ∧ channel s1 = channel s2)
      ∧ (d1 = d2 → typename s1 = typename s2 ∧ file s1 = file s2)
  | _, _ => False
  end.
Proof.
  destruct (Sector_init block_video) as [s1|e1] eqn:Hs1; [|parse_succeeds Hs1].
  destruct (Sector_init block_audio) as [s2|e2] eqn:Hs2; [|parse_succeeds Hs2].
  apply (output_path_injective block_video block_audio s1 s2 "out" Hs1 Hs2).
  - by_parsing Hs1.
  - by_parsing Hs2.
Defined.
End output_paths.

(** ** More on the driver *)

Section driver_outcomes.
Implicit Types (raw infile prefix rest : bytes) (s : Sector) (w : world).
Implicit Types (target_dir : string) (verbose : bool) (n m : Z) (fuel : nat).
Implicit Types (blocks : list bytes).

(** The turn of the loop for a stream that begins with a whole sector. *)
Lemma main_loop_cons fuel raw rest target_dir verbose n w :
  len raw = SECTOR_SIZE → (length (raw ++ rest)%list < fuel)%nat →
  main_loop fuel (raw ++ rest)%list target_dir verbose n w
  = match main_body target_dir verbose n raw w with
    | (Ok _, w1) => main_loop (S (length rest)) rest target_dir verbose (n + 1) w1
    | (Raise e, w1) => (Raise e, w1)
    end.
Proof.
  intros Hlen Hfuel. destruct fuel as [|fuel]; [lia|].
  rewrite main_loop_unfold, (read_app raw rest Hlen). cbn [fst snd].
  destruct raw as [|b bs]; [done|].
  destruct (main_body target_dir verbose n (b :: bs) w) as [[[]|e] w1]; [|done].
  apply main_loop_fuel; [|lia]. rewrite length_app in Hfuel. cbn in Hfuel. lia.
Qed.

Lemma main_loop_nil fuel target_dir verbose n w :
  main_loop (S fuel) [] target_dir verbose n w = (Ok (Some n), w).
Proof. by rewrite main_loop_unfold. Qed.

Lemma world_extends_refl w : world_extends w w.
Proof. by repeat split. Qed.

Lemma world_extends_trans w1 w2 w3 :
  world_extends w1 w2 → world_extends w2 w3 → world_extends w1 w3.
Proof.
  intros (Hd1 & Ho1 & Hf1) (Hd2 & Ho2 & Hf2).
  split; [by etrans|]. split; [by etrans|].
  intros path. destruct (Hf1 path) as [Hp1 Hs1]. destruct (Hf2 path) as [Hp2 Hs2].
  split; [by etrans | auto].
Qed.

Lemma write_sector_extends raw s target_dir verbose n w :
  Sector_init raw = Ok s →
  world_extends w (write_sector target_dir verbose n s w).2.
Proof.
  intros Hs.
  destruct (write_sector target_dir verbose n s w) as [[u|e] w'] eqn:Hturn; cbn [snd];
    unfold world_extends.
  - destruct (write_sector_Ok raw s target_dir verbose n w u w' Hs Hturn)
      as (dirname & path & lines & _ & _ & -> & -> & -> & _).
    split; [by apply prefix_app_r|]. split; [by apply prefix_app_r|].
    intros p. destruct (decide (path = p)) as [->|Hne].
    + rewrite lookup_insert_eq. cbn [default]. split; [by apply prefix_app_r | by eauto].
    + by rewrite lookup_insert_ne.
  - destruct (write_sector_Raise raw s target_dir verbose n w e w' Hs Hturn)
      as (-> & Hdirs & Hout & _).
    by repeat split.
Qed.

Lemma main_loop_extends fuel infile target_dir verbose n w :
  world_extends w (main_loop fuel infile target_dir verbose n w).2.
Proof.
  revert infile n w. induction fuel as [|fuel IH]; intros infile n w.
  { apply world_extends_refl. }
  rewrite main_loop_unfold.
  destruct (read infile SECTOR_SIZE).1 as [|b bs]; [apply world_extends_refl|].
  rewrite main_body_unfold.
  destruct (Sector_init (b :: bs)) as [s|e] eqn:Hs; [|apply world_extends_refl].
  pose proof (write_sector_extends _ s target_dir verbose n w Hs) as Hturn.
  destruct (write_sector target_dir verbose n s w) as [[[]|e] w1]; [|done].
  eapply world_extends_trans; [exact Hturn | apply IH].
Qed.

(** X7: [main] only adds: whatever the stream is, whatever the operating
    system refuses and however [main] ends, the directories asked for and
    the lines printed before are still there followed by those of this run,
    every file that existed still exists, and its old content is the
    beginning of its new content. *)
Theorem main_append_only infile target_dir verbose w :
  world_extends w (main infile target_dir verbose w).2
  ∧ ∀ path old, files w !! path = Some old →
      ∃ new, files (main infile target_dir verbose w).2 !! path
             = Some (old ++ new)%list.
Proof.
  assert (world_extends w (main infile target_dir verbose w).2) as Hext.
  { rewrite main_unfold.
    destruct (fs_fault w (Makedirs target_dir) (made_dirs w) (files w));
      [apply world_extends_refl|].
    eapply world_extends_trans; [|apply main_loop_extends].
    split; [by apply prefix_app_r|]. by split. }
  split; [done|]. intros path old Hold.
  destruct Hext as (_ & _ & Hfiles). destruct (Hfiles path) as [Hprefix Hsome].
  destruct Hsome as [content Hcontent]; [by eauto|].
  rewrite Hold, Hcontent in Hprefix. cbn in Hprefix.
  destruct Hprefix as [new ->]. by exists new.
Qed.

Lemma main_append_only_witness :
  ∃ new,
    files (main block_video "out" false
             (add_bytes "out/video/01/1f" [Byte.x2a] empty_world)).2
      !! "out/video/01/1f"
    = Some ([Byte.x2a] ++ new)%list.
Proof.
  apply main_append_only. vm_compute. reflexivity.
Defined.
End driver_outcomes.

Section driver_streams.
Implicit Types (raw infile prefix rest : bytes) (s : Sector) (w : world).
Implicit Types (target_dir : string) (verbose : bool) (n m : Z) (fuel : nat).
Implicit Types (blocks : list bytes).

Lemma len_nonneg raw : 0 ≤ len raw.
Proof. unfold len. lia. Qed.

(** A stream of whole sectors that the loop processes to its end. *)
Lemma main_loop_blocks blocks target_dir verbose :
  Forall (λ raw, len raw = SECTOR_SIZE) blocks →
  ∀ n w m w',
    main_loop (S (length (concat blocks))) (concat blocks) target_dir verbose n w
    = (Ok (Some m), w') →
    m = n + Z.of_nat (length blocks)
    ∧ (∀ path, default [] (files w' !! path)
               = (default [] (files w !! path) ++ routed target_dir path blocks)%list)
    ∧ length (made_dirs w') = (length (made_dirs w) + length blocks)%nat
    ∧ length (stdout w')
      = (length (stdout w) + if verbose then length blocks else 0)%nat.
Proof.
  induction 1 as [|raw blocks Hlen Hblocks IH]; intros n w m w'.
  { cbn [concat]. rewrite main_loop_nil. intros [= <- <-].
    split; [cbn; lia|]. split; [intros path; by rewrite app_nil_r|].
    split; [cbn; lia|]. destruct verbose; cbn; lia. }
  cbn [concat]. rewrite main_loop_cons by (done || lia).
  rewrite main_body_unfold. unfold routed. cbn [fmap list_fmap concat].
  fold (routed_block target_dir) in *.
  unfold routed_block at 1.
  destruct (Sector_init raw) as [s|e] eqn:Hs; [|done].
  destruct (write_sector target_dir verbose n s w) as [[[]|e] w1] eqn:Hturn; [|done].
  destruct (write_sector_Ok raw s target_dir verbose n w () w1 Hs Hturn)
    as (dirname & p & lines & -> & Hlines & Hd1 & Hf1 & Ho1 & _).
  intros (-> & Hfiles & Hdirs & Hout)%IH.
  split; [cbn [length]; lia|]. split.
  - intros path. rewrite Hfiles, Hf1. fold (routed target_dir path blocks).
    destruct (String.eqb_spec p path) as [->|Hne].
    + rewrite lookup_insert_eq. cbn [default id]. by rewrite <-(assoc_L (++)).
    + by rewrite lookup_insert_ne.
  - rewrite Hdirs, Hout, Hd1, Ho1, !length_app. cbn [length].
    split; [lia|]. destruct verbose; lia.
Qed.

(** X8: what [main] writes is what it read, sector by sector. When the
    stream is a sequence of blocks of 2352 bytes and [main] ends without
    exception, whatever the operating system would refuse, it has counted
    every block; every file holds what it held
    before followed by the [data] of the sectors routed to it, in the order
    of the stream, nothing left out and nothing twice; [os.makedirs] was
    called once for the target directory and once per block; a verbose run
    printed one line per block and another run none. *)
Theorem main_round_trip blocks target_dir verbose w n w' :
  Forall (λ raw, len raw = SECTOR_SIZE) blocks →
  main (concat blocks) target_dir verbose w = (Ok (Some n), w') →
  n = Z.of_nat (length blocks)
  ∧ (∀ path, default [] (files w' !! path)
             = (default [] (files w !! path) ++ routed target_dir path blocks)%list)
  ∧ length (made_dirs w') = S (length (made_dirs w) + length blocks)
  ∧ length (stdout w')
    = (length (stdout w) + if verbose then length blocks else 0)%nat.
Proof.
  intros Hblocks [_ Hloop]%main_Ok_loop.
  apply (main_loop_blocks _ _ _ Hblocks) in Hloop as (-> & Hfiles & Hdirs & Hout).
  cbn [add_dir files made_dirs stdout] in *.
  split; [lia|]. split; [done|]. split; [|done].
  rewrite Hdirs, length_app. cbn [length]. lia.
Qed.

Lemma main_round_trip_witness :
  default [] (files (main (concat [block_video; block_audio; block_video])
                       "out" false empty_world).2 !! "out/video/01/1f")
  = ([] ++ routed "out" "out/video/01/1f" [block_video; block_audio; block_video])%list.
Proof.
  apply (main_round_trip [block_video; block_audio; block_video] "out" false
           empty_world 3
           (main (concat [block_video; block_audio; block_video])
              "out" false empty_world).2).
  - repeat constructor.
  - vm_compute. reflexivity.
Defined.

(** The four outcomes of [Sector.__init__]. *)
Lemma Sector_init_outcome raw :
  (∃ s, Sector_init raw = Ok s)
  ∨ (Sector_init raw = Raise (length_error raw) ∧ len raw ≠ SECTOR_SIZE)
  ∨ Sector_init raw = Raise sync_error
  ∨ Sector_init raw = Raise mode_error.
Proof.
  destruct (decide (len raw = SECTOR_SIZE)) as [Hlen|Hlen].
  - destruct (startswith raw SYNC) eqn:Hsync.
    + pose proof (header_bytes raw Hlen)
        as (_ & _ & _ & m & _ & _ & _ & _ & (_ & _ & _ & Hm) & _).
      pose proof (Sector_init_mode raw m Hlen Hsync Hm) as Hcase.
      case_decide; [left | by right; right; right].
      destruct Hcase as (s & Hs & _). by exists s.
    + right; right; left. unfold Sector_init. by rewrite Hlen, Z.eqb_refl, Hsync.
  - right; left. split; [|done]. unfold Sector_init.
    by destruct (Z.eqb_spec (len raw) SECTOR_SIZE).
Qed.

(** X9: a block that [Sector.__init__] rejects ends the run. When the
    stream is sectors that [main] processes, then a block of 2352 bytes for
    which [Sector.__init__] raises, then anything, [main] raises that
    exception, which is the sync error or the mode error, in the world the
    sectors before left: nothing of the block and nothing after it is
    looked at or written. The script prints the message and exits with
    status 1, or ends with the exception of [print] when the message is
    refused. *)
Theorem main_decode_error prefix raw rest target_dir verbose w n w' e :
  main prefix target_dir verbose w = (Ok (Some n), w') →
  len raw = SECTOR_SIZE → Sector_init raw = Raise e →
  (e = sync_error ∨ e = mode_error)
  ∧ main (prefix ++ raw ++ rest)%list target_dir verbose w = (Raise e, w')
  ∧ (out_fault w' (exn_str e) (stdout w') = None →
     script (prefix ++ raw ++ rest)%list target_dir verbose w
     = (Exit 1, add_line (exn_str e) w'))
  ∧ (∀ f, out_fault w' (exn_str e) (stdout w') = Some f →
       script (prefix ++ raw ++ rest)%list target_dir verbose w
       = (Uncaught (fault_exn f), w')).
Proof.
  intros [Hmkdir Hprefix]%main_Ok_loop Hlen Hraise.
  assert (main (prefix ++ raw ++ rest)%list target_dir verbose w = (Raise e, w'))
    as Hmain.
  { rewrite main_unfold, Hmkdir.
    rewrite (main_loop_app _ _ _ _ _ _ _ _ _ _ Hprefix) by lia.
    rewrite main_loop_cons by (done || lia).
    by rewrite main_body_unfold, Hraise. }
  assert (e = sync_error ∨ e = mode_error) as He.
  { destruct (Sector_init_outcome raw) as [[s Hs] | [[Hl Hne] | [Hsync | Hmode]]].
    - congruence.
    - done.
    - left. congruence.
    - right. congruence. }
  split; [done|]. split; [done|].
  unfold script. rewrite Hmain. unfold print.
  destruct He as [-> | ->]; (split; [by intros -> | by intros f ->]).
Qed.

Lemma main_decode_error_witness :
  main (block_video ++ block_no_sync ++ block_audio)%list "out" false empty_world
  = (Raise sync_error, (main block_video "out" false empty_world).2).
Proof.
  apply (main_decode_error block_video block_no_sync block_audio "out" false
           empty_world 1).
  - vm_compute. reflexivity.
  - vm_compute. reflexivity.
  - vm_compute. reflexivity.
Defined.






(** The loop run verbose and not, from worlds with the same files and
    directories and the same answers of the file system: the two runs do
    the same, up to the first line that is refused. *)
Lemma main_loop_verbose fuel infile target_dir n wa wb :
  files wa = files wb → made_dirs wa = made_dirs wb →
  fs_fault wa = fs_fault wb →
  ((main_loop fuel infile target_dir true n wa).1
   = (main_loop fuel infile target_dir false n wb).1
   ∧ files (main_loop fuel infile target_dir true n wa).2
     = files (main_loop fuel infile target_dir false n wb).2
   ∧ made_dirs (main_loop fuel infile target_dir true n wa).2
     = made_dirs (main_loop fuel infile target_dir false n wb).2)
  ∨ (∃ f line out,
       out_fault wa line out = Some f
       ∧ (main_loop fuel infile target_dir true n wa).1 = Raise (fault_exn f)
       ∧ made_dirs (main_loop fuel infile target_dir true n wa).2
         `prefix_of` made_dirs (main_loop fuel infile target_dir false n wb).2
       ∧ ∀ path,
           default [] (files (main_loop fuel infile target_dir true n wa).2 !! path)
           `prefix_of`
           default [] (files (main_loop fuel infile target_dir false n wb).2 !! path)).
Proof.
  revert infile n wa wb.
  induction fuel as [|fuel IH]; intros infile n wa wb Hf Hd Hff.
  { by left. }
  pose proof (main_loop_extends (S fuel) infile target_dir false n wb) as Hext.
  revert Hext. rewrite !main_loop_unfold.
  destruct (read infile SECTOR_SIZE).1 as [|b bs]; [intros _; by left|].
  rewrite !main_body_unfold.
  destruct (Sector_init (b :: bs)) as [s|e] eqn:Hs; [|intros _; by left].
  destruct (write_sector_unfold _ s target_dir true n wa Hs) as (line & Hline & ->).
  destruct (write_sector_unfold _ s target_dir false n wb Hs) as (line' & _ & ->).
  destruct (print_cases (format_6d n +:+ " " +:+ line) wa)
    as [[_ ->] | (f & Hrefused & ->)].
  - intros _.
    destruct (output_path target_dir s) as [[dirname path]|e]; [|by left].
    unfold os_makedirs, append_write. same_fs; cbn [add_line made_dirs files].
    rewrite Hff, Hd, Hf.
    destruct (fs_fault wb (Makedirs dirname) (made_dirs wb) (files wb)); [by left|].
    same_fs; cbn [add_dir add_line made_dirs files]. rewrite ?Hff, ?Hd, ?Hf.
    destruct (fs_fault wb (OpenAppend path (data s)) (made_dirs wb ++ [dirname])%list
                (files wb)); [left; by cbn; rewrite Hf, Hd|].
    destruct (IH (read infile SECTOR_SIZE).2 (n + 1)
                (add_bytes path (data s)
                   (add_dir dirname (add_line (format_6d n +:+ " " +:+ line) wa)))
                (add_bytes path (data s) (add_dir dirname wb)))
      as [Hsame | (f & line0 & out & Hrefused & Hrest)].
    + cbn [add_bytes add_dir add_line files made_dirs]. by rewrite Hf.
    + cbn [add_bytes add_dir add_line files made_dirs]. by rewrite Hd.
    + by same_fs.
    + by left.
    + right. exists f, line0, out. split; [exact Hrefused | exact Hrest].
  - intros (Hdirs & _ & Hfiles). right.
    exists f, (format_6d n +:+ " " +:+ line), (stdout wa).
    split; [exact Hrefused|]. split; [done|]. cbn [fst snd]. rewrite Hd, Hf.
    split; [exact Hdirs|]. intros path. apply Hfiles.
Qed.

Lemma main_loop_silent fuel infile target_dir n w :
  stdout (main_loop fuel infile target_dir false n w).2 = stdout w.
Proof.
  revert infile n w. induction fuel as [|fuel IH]; intros infile n w; [done|].
  rewrite main_loop_unfold.
  destruct (read infile SECTOR_SIZE).1 as [|b bs]; [done|].
  rewrite main_body_unfold.
  destruct (Sector_init (b :: bs)) as [s|e] eqn:Hs; [|done].
  destruct (write_sector target_dir false n s w) as [[[]|e] w1] eqn:Hturn.
  - destruct (write_sector_Ok _ s target_dir false n w () w1 Hs Hturn)
      as (_ & _ & lines & _ & Hlines & _ & _ & Hout & _).
    rewrite IH, Hout. destruct lines; [by rewrite app_nil_r | done].
  - cbn [snd]. revert Hturn.
    destruct (write_sector_unfold _ s target_dir false n w Hs) as (line & _ & ->).
    destruct (output_path target_dir s) as [[dirname path]|e0]; [|by intros [= _ <-]].
    unfold os_makedirs, append_write.
    destruct (fs_fault w (Makedirs dirname) (made_dirs w) (files w));
      [by intros [= _ <-]|].
    same_fs; cbn [add_dir made_dirs files].
    destruct (fs_fault w (OpenAppend path (data s)) (made_dirs w ++ [dirname])%list
                (files w)); [by intros [= _ <-] | done].
Qed.

(** X11: a verbose run does what a run that is not verbose does, up to the
    first line that is refused. When the operating system refuses no line,
    [main] ends the same way, with the same files and the same directories
    made, whether verbose or not. In general the verbose run either does
    so, or it ends with the exception of a line that was refused, and then
    its directories and the contents of its files are the beginning of
    those of the other run. A run that is not verbose prints nothing,
    whatever the operating system does. *)
Theorem main_verbose_only_prints infile target_dir w :
  let same :=
    (main infile target_dir true w).1 = (main infile target_dir false w).1
    ∧ files (main infile target_dir true w).2 = files (main infile target_dir false w).2
    ∧ made_dirs (main infile target_dir true w).2
      = made_dirs (main infile target_dir false w).2 in
  ((∀ line out, out_fault w line out = None) → same)
  ∧ (same
     ∨ ∃ f line out,
         out_fault w line out = Some f
         ∧ (main infile target_dir true w).1 = Raise (fault_exn f)
         ∧ made_dirs (main infile target_dir true w).2
           `prefix_of` made_dirs (main infile target_dir false w).2
         ∧ ∀ path,
             default [] (files (main infile target_dir true w).2 !! path)
             `prefix_of` default [] (files (main infile target_dir false w).2 !! path))
  ∧ stdout (main infile target_dir false w).2 = stdout w.
Proof.
  intros same. subst same.
  assert ((main infile target_dir true w).1 = (main infile target_dir false w).1
          ∧ files (main infile target_dir true w).2
            = files (main infile target_dir false w).2
          ∧ made_dirs (main infile target_dir true w).2
            = made_dirs (main infile target_dir false w).2
          ∨ ∃ f line out,
              out_fault w line out = Some f
              ∧ (main infile target_dir true w).1 = Raise (fault_exn f)
              ∧ made_dirs (main infile target_dir true w).2
                `prefix_of` made_dirs (main infile target_dir false w).2
              ∧ ∀ path,
                  default [] (files (main infile target_dir true w).2 !! path)
                  `prefix_of`
                  default [] (files (main infile target_dir false w).2 !! path))
    as Hruns.
  { rewrite !main_unfold.
    destruct (fs_fault w (Makedirs target_dir) (made_dirs w) (files w)); [by left|].
    destruct (main_loop_verbose (S (length infile)) infile target_dir 0
                (add_dir target_dir w) (add_dir target_dir w) eq_refl eq_refl eq_refl)
      as [Hsame | (f & line & out & Hrefused & Hrest)]; [by left|].
    right. exists f, line, out. split; [exact Hrefused | exact Hrest]. }
  split; [|split; [exact Hruns|]].
  - intros Hout. destruct Hruns as [Hsame | (f & line & out & Hrefused & _)];
      [exact Hsame|].
    by rewrite Hout in Hrefused.
  - rewrite main_unfold.
    destruct (fs_fault w (Makedirs target_dir) (made_dirs w) (files w)); [done|].
    by rewrite main_loop_silent.
Qed.

Lemma main_verbose_only_prints_witness :
  (main (block_video ++ block_mode1)%list "out" true empty_world).1
  = (main (block_video ++ block_mode1)%list "out" false empty_world).1.
Proof.
  apply (main_verbose_only_prints (block_video ++ block_mode1)%list "out" empty_world).
  intros line out. reflexivity.
Defined.
End driver_streams.

Section driver_sectors.
Implicit Types (raw : bytes) (s : Sector) (w : world).
Implicit Types (target_dir : string) (verbose : bool) (n : Z).

(** X12: [str(sector)] raises for no parsed sector, and reads
    [MM:SS:FF label [size]]: the label is [Empty] for mode 0, [Mode1] for
    mode 1, and for mode 2 always the long form with the form, the types
    among Video, Audio and Data joined by [/] or [None] when there is none,
    and [file] and [channel] in two hexadecimal digits. *)
Theorem Sector_str_parsed raw s :
  Sector_init raw = Ok s →
  ∃ label,
    Sector_str s
    = Ok ((format_02d (minute s) +:+ ":" +:+ format_02d (second s) +:+ ":"
           +:+ format_02d (sector s))
          +:+ " " +:+ label +:+ " [" +:+ format_d (data_size s) +:+ "]")
    ∧ (mode s = 0 → label = "Empty" ∧ format_d (data_size s) = "0")
    ∧ (mode s = 1 → label = "Mode1" ∧ format_d (data_size s) = "2048")
    ∧ (mode s = 2 →
       ∃ f c sm,
         file s = Some f ∧ channel s = Some c ∧ submode s = Some sm
         ∧ label
           = "Mode2/Form" +:+ (if Z.testbit sm 5 then "2" else "1") +:+ " "
             +:+ match Z.testbit sm 1, Z.testbit sm 2, Z.testbit sm 3 with
                 | false, false, false => "None"
                 | true, false, false => "Video"
                 | false, true, false => "Audio"
                 | false, false, true => "Data"
                 | true, true, false => "Video/Audio"
                 | true, false, true => "Video/Data"
                 | false, true, true => "Audio/Data"
                 | true, true, true => "Video/Audio/Data"
                 end
             +:+ " F" +:+ format_02x_int f +:+ " C" +:+ format_02x_int c
         ∧ format_d (data_size s) = if Z.testbit sm 5 then "2324" else "2048").
Proof.
  intros Hs. invert_Sector_init raw Hs.
  destruct (Z.eqb_spec (byte_val b15) 0) as [E0|E0].
  { intros [= <-]. unfold Sector_str. cbn [mode minute second sector data_size form].
    rewrite E0. cbn [Z.eqb mbind result_bind].
    eexists. split; [reflexivity|]. by repeat split. }
  destruct (Z.eqb_spec (byte_val b15) 1) as [E1|E1].
  { intros [= <-]. unfold Sector_str. cbn [mode minute second sector data_size form].
    rewrite E1. cbn [Z.eqb Pos.eqb mbind result_bind].
    eexists. split; [reflexivity|]. by repeat split. }
  destruct (Z.eqb_spec (byte_val b15) 2) as [E2|E2]; [|done].
  pose proof (bool_of_int_land_pow2 (byte_val b18) 5 ltac:(lia)) as Hbit.
  change (2 ^ 5) with 32 in Hbit.
  destruct (bool_of_int (Z.land (byte_val b18) 32)) eqn:Hform;
    intros [= <-]; unfold Sector_str;
    cbn [mode minute second sector data_size form file channel submode
         type_video type_audio type_data truthy default];
    rewrite E2; cbn [Z.eqb Pos.eqb format_02x mbind result_bind];
    (eexists; split; [reflexivity|]);
    (split; [intros; lia|]); (split; [intros; lia|]); intros _;
    eexists _, _, _; (do 3 (split; [reflexivity|]));
    rewrite <-Hbit, <-!bool_of_int_land_pow2 by lia;
    change (2 ^ 1) with 2; change (2 ^ 2) with 4; change (2 ^ 3) with 8;
    destruct (bool_of_int (Z.land (byte_val b18) 2)),
      (bool_of_int (Z.land (byte_val b18) 4)),
      (bool_of_int (Z.land (byte_val b18) 8)); by split.
Qed.

Lemma Sector_str_parsed_witness :
  match Sector_init block_video with
  | Ok s => Sector_str s = Ok "00:02:27 Mode2/Form1 Video/Data F01 C1f [2048]"
  | Raise _ => False
  end.
Proof.
  destruct (Sector_init block_video) as [s|e] eqn:Hs.
  - destruct (Sector_str_parsed block_video s Hs) as (label & -> & _ & _ & Hmode2).
    destruct Hmode2 as (f & c & sm & Hf & Hc & Hsm & -> & ->); [by_parsing Hs|].
    assert (file s = Some 1) as Hf' by by_parsing Hs.
    assert (channel s = Some 31) as Hc' by by_parsing Hs.
    assert (submode s = Some 10) as Hsm' by by_parsing Hs.
    rewrite Hf' in Hf. injection Hf as <-. rewrite Hc' in Hc. injection Hc as <-.
    rewrite Hsm' in Hsm. injection Hsm as <-.
    by_parsing Hs.
  - parse_succeeds Hs.
Defined.

Lemma is_filler_cases s :
  is_filler s = true →
  mode s = 0 ∨ (mode s = 2 ∧ form s = Some 2 ∧ submode s = Some 32).
Proof.
  unfold is_filler, eq_int.
  destruct (Z.eqb_spec (mode s) 0); [by left|].
  destruct (Z.eqb_spec (mode s) 2); [|done].
  destruct (form s) as [fm|]; [|done]. destruct (Z.eqb_spec fm 2) as [->|]; [|done].
  destruct (submode s) as [sm|]; [|done]. destruct (Z.eqb_spec sm 32) as [->|]; [|done].
  by right.
Qed.

Lemma Sector_init_form2_data raw s :
  Sector_init raw = Ok s → form s = Some 2 → len (data s) = 2324.
Proof.
  intros Hs. destruct (Sector_init_Ok_checks raw s Hs) as [Hlen0 _].
  pose proof (length_slice raw 24 2348 ltac:(lia) ltac:(by rewrite Hlen0)) as Hdata.
  invert_Sector_init raw Hs.
  destruct (byte_val b15 =? 0); [by intros [= <-]|].
  destruct (byte_val b15 =? 1); [by intros [= <-]|].
  destruct (byte_val b15 =? 2); [|done].
  destruct (bool_of_int _); by intros [= <-].
Qed.

(** X13: [main] does not skip filler sectors. For a parsed sector with
    [is_filler]: when its mode is 0 the turn of the loop ends with an
    exception and writes nothing, the exception of the unset [file] unless
    the line of a verbose run was refused; when its mode is 2 its
    [typename] is [untyped], a turn that ends without exception has
    appended its 2324 bytes to [target_dir/untyped/xx/yy], and the turn
    ends without exception when the operating system carries out its
    calls. *)
Theorem filler_not_skipped raw s target_dir verbose n w :
  Sector_init raw = Ok s → is_filler s = true →
  (mode s = 0
   ∧ ∃ e w', main_body target_dir verbose n raw w = (Raise e, w')
             ∧ files w' = files w
             ∧ ((∀ line, verbose = true → Sector_str s = Ok line →
                   out_fault w (format_6d n +:+ " " +:+ line) (stdout w) = None) →
                e = TypeError "unsupported format string passed to NoneType.__format__"))
  ∨ (mode s = 2 ∧ typename s = "untyped" ∧ len (data s) = 2324
     ∧ ∃ f c,
         file s = Some f ∧ channel s = Some c
         ∧ let dirname := with_sep target_dir +:+ "untyped" +:+ "/" +:+ format_02x_int f in
           let path := with_sep target_dir +:+ "untyped" +:+ "/" +:+ format_02x_int f
                       +:+ "/" +:+ format_02x_int c in
           (∀ u w', main_body target_dir verbose n raw w = (Ok u, w') →
              files w' !! path = Some (default [] (files w !! path) ++ data s)%list)
           ∧ ((∀ line, verbose = true → Sector_str s = Ok line →
                 out_fault w (format_6d n +:+ " " +:+ line) (stdout w) = None) →
              fs_fault w (Makedirs dirname) (made_dirs w) (files w) = None →
              fs_fault w (OpenAppend path (data s)) (made_dirs w ++ [dirname])%list
                (files w) = None →
              ∃ w', main_body target_dir verbose n raw w = (Ok tt, w')
                    ∧ files w' !! path
                      = Some (default [] (files w !! path) ++ data s)%list)).
Proof.
  intros Hs [Hmode | (Hmode & Hform & Hsm)]%is_filler_cases.
  - left. split; [done|]. rewrite main_body_unfold, Hs.
    destruct (Sector_init_attributes raw s Hs) as [(_ & Hfile & _) | (? & _)]; [|lia].
    destruct (write_sector_unset raw s target_dir verbose n w Hs Hfile)
      as (e & w' & -> & Hfiles & _ & _ & _ & He).
    by exists e, w'.
  - right. split; [done|].
    destruct (Sector_init_type_flags raw s 32 Hs Hsm) as (Hv & Ha & Hd).
    assert (typename s = "untyped") as Htype.
    { unfold typename. by rewrite Hv, Ha, Hd. }
    split; [done|]. split; [by apply (Sector_init_form2_data raw)|].
    destruct (Sector_init_file_channel raw s Hs Hmode) as (f & c & Hf & Hc & Hfr & Hcr).
    exists f, c. split; [done|]. split; [done|].
    pose proof (output_path_bytes target_dir s f c Hf Hc Hfr ltac:(lia)) as Hpath.
    rewrite Htype in Hpath.
    assert (output_path target_dir s
            = Ok (path_join (path_join target_dir (typename s)) (format_02x_int f),
                  path_join (path_join (path_join target_dir (typename s))
                               (format_02x_int f)) (format_02x_int c))) as Hjoin
      by (unfold output_path; by rewrite Hf, Hc).
    rewrite Hjoin in Hpath. injection Hpath as Hdirname Hfile.
    intros dirname path. rewrite main_body_unfold, Hs. split.
    + intros u w' Hturn.
      destruct (write_sector_Ok raw s target_dir verbose n w u w' Hs Hturn)
        as (dirname' & path' & lines & Hpath' & _ & _ & -> & _).
      rewrite Hjoin in Hpath'. injection Hpath' as <- <-.
      rewrite Hfile. fold dirname. fold path. by rewrite lookup_insert_eq.
    + intros Hprint Hmkdir Hopen.
      destruct (write_sector_set raw s target_dir verbose n w f c Hs Hf Hc)
        as (w' & Hw & Hfiles & _); [done | by rewrite Hdirname | by rewrite Hfile, Hdirname |].
      exists w'. split; [done|]. rewrite Hfiles, Hfile. fold dirname. fold path.
      by rewrite lookup_insert_eq.
Qed.

Lemma filler_not_skipped_witness :
  match Sector_init block_form2_only with
  | Ok s =>
    ∃ w', main_body "out" false 0 block_form2_only empty_world = (Ok tt, w')
          ∧ files w' !! "out/untyped/00/00" = Some (data s)
  | Raise _ => False
  end.
Proof.
  destruct (Sector_init block_form2_only) as [s|e] eqn:Hs.
  - destruct (filler_not_skipped block_form2_only s "out" false 0 empty_world Hs)
      as [[Hmode _] | (_ & _ & _ & f & c & Hf & Hc & _ & Haccepted)].
    + by_parsing Hs.
    + assert (mode s = 2) as Hmode2 by by_parsing Hs.
      rewrite Hmode2 in Hmode. discriminate Hmode.
    + assert (file s = Some 0) as Hf' by by_parsing Hs.
      assert (channel s = Some 0) as Hc' by by_parsing Hs.
      rewrite Hf' in Hf. injection Hf as <-. rewrite Hc' in Hc. injection Hc as <-.
      destruct Haccepted as (w' & Hbody & Hfiles).
      * intros line Hverbose. discriminate Hverbose.
      * reflexivity.
      * reflexivity.
      * exists w'. split; [exact Hbody | exact Hfiles].
  - parse_succeeds Hs.
Defined.
End driver_sectors.
